(** * epagneul: event ingestion (core/evtx.py) and graph handoff (core/neo4j.py)

    A shallow embedding of the two modules and the properties of their
    natural-language specification.

    Conventions of the embedding.
    - A Python [str] is a [string]; a character is a code point below 256.
    - A Python [int] is a [Z].
    - A call that may raise returns a [result]: [Ok v] or [Raise e], where [e]
      is the class of the exception.
    - A [dict] whose order matters (the dispatch table, the fields of a
      pydantic model, the tables of the store) is an association list in
      insertion order; a Python [set] is a [gset], and the order in which
      it iterates is left open.
    - A Python [float] is a binary64 of IEEE 754, a [spec_float] with 53
      bits of precision. *)

From Stdlib Require Import ZArith String Ascii List Lia DecimalString.
From Stdlib Require Import SpecFloat.
From stdpp Require Import gmap strings list.

Open Scope string_scope.
Open Scope Z_scope.

(* ================================================================== *)
(** * Exceptions *)

Inductive exc : Type :=
| ValueError | TypeError | IndexError | KeyError | AttributeError
| OverflowError | XMLSyntaxError | RuntimeError.

Inductive result (A : Type) : Type :=
| Ok (a : A)
| Raise (e : exc).
Arguments Ok {A} a.
Arguments Raise {A} e.

#[global] Instance result_ret : MRet result := fun _ a => Ok a.

#[global] Instance result_bind : MBind result := fun _ _ k r =>
  match r with
  | Ok a => k a
  | Raise e => Raise e
  end.

Definition is_ok {A : Type} (r : result A) : bool :=
  match r with Ok _ => true | Raise _ => false end.

(* ================================================================== *)
(** * Characters and strings *)

Definition code (c : ascii) : Z := Z.of_N (N_of_ascii c).

(** [0-9] of a regular expression: the ASCII digits. *)
Definition is_digit (c : ascii) : bool := (48 <=? code c) && (code c <=? 57).

(** White space of [str.strip], [str.isspace] and [\s] of a [str] pattern,
    for code points below 256. *)
Definition is_space (c : ascii) : bool :=
  let n := code c in
  ((9 <=? n) && (n <=? 13)) || ((28 <=? n) && (n <=? 32))
  || (n =? 133) || (n =? 160).

(** Case folding of [re.IGNORECASE] for code points below 256. *)
Definition lower (c : ascii) : ascii :=
  let n := code c in
  if ((65 <=? n) && (n <=? 90))
     || ((192 <=? n) && (n <=? 222) && negb (n =? 215))
  then ascii_of_N (Z.to_N (n + 32)) else c.

Definition char_eqb (ignorecase : bool) (a b : ascii) : bool :=
  if ignorecase then Ascii.eqb (lower a) (lower b) else Ascii.eqb a b.

Fixpoint lstrip (s : string) : string :=
  match s with
  | String c rest => if is_space c then lstrip rest else s
  | EmptyString => EmptyString
  end.

Fixpoint rstrip (s : string) : string :=
  match s with
  | String c rest =>
      match rstrip rest with
      | EmptyString => if is_space c then EmptyString else String c EmptyString
      | kept => String c kept
      end
  | EmptyString => EmptyString
  end.

(** [s.strip()] *)
Definition strip (s : string) : string := rstrip (lstrip s).

(** [s.split(sep)[0]] for a one-character separator: the text before the
    first occurrence of [sep], the whole of [s] when there is none. *)
Fixpoint split_first (sep : ascii) (s : string) : string :=
  match s with
  | String c rest =>
      if Ascii.eqb c sep then EmptyString else String c (split_first sep rest)
  | EmptyString => EmptyString
  end.

(** [s.split(sep)] for a one-character separator. *)
Fixpoint split (sep : ascii) (s : string) : list string :=
  match s with
  | String c rest =>
      if Ascii.eqb c sep then EmptyString :: split sep rest
      else match split sep rest with
           | piece :: pieces => String c piece :: pieces
           | [] => [String c EmptyString]
           end
  | EmptyString => [EmptyString]
  end.

(** The rest of [s] after the prefix [p], when [s] starts with [p]. *)
Fixpoint drop_prefix (ignorecase : bool) (p s : string) : option string :=
  match p, s with
  | EmptyString, _ => Some s
  | String a p', String b s' =>
      if char_eqb ignorecase a b then drop_prefix ignorecase p' s' else None
  | String _ _, EmptyString => None
  end.

(** [s.replace(old, new)] for a non-empty [old]: the occurrences of [old]
    are replaced from left to right, without overlap. [skip] counts the
    characters of an occurrence that are still to be dropped. *)
Fixpoint replace_from (old new : string) (skip : nat) (s : string) : string :=
  match s with
  | String c rest =>
      match skip with
      | S k => replace_from old new k rest
      | O =>
          match drop_prefix false old s with
          | Some _ => new ++ replace_from old new (String.length old - 1)%nat rest
          | None => String c (replace_from old new O rest)
          end
      end
  | EmptyString => EmptyString
  end.

Definition replace (old new s : string) : string := replace_from old new O s.

(** [sep.join(pieces)] *)
Fixpoint join (sep : string) (pieces : list string) : string :=
  match pieces with
  | [] => EmptyString
  | [p] => p
  | p :: rest => p ++ sep ++ join sep rest
  end.

(** [str(i)] of an [int]. *)
Definition str (i : Z) : string := NilEmpty.string_of_int (Z.to_int i).

(** [s.encode("utf-8")]: one byte below 128, two bytes from 128 to 255. *)
Fixpoint encode_utf8 (s : string) : string :=
  match s with
  | String c rest =>
      let n := code c in
      if n <? 128 then String c (encode_utf8 rest)
      else String (ascii_of_N (Z.to_N (192 + n / 64)))
             (String (ascii_of_N (Z.to_N (128 + n mod 64))) (encode_utf8 rest))
  | EmptyString => EmptyString
  end.

(* ================================================================== *)
(** * Regular expressions (module [re])

    The constructs the two modules and [_strptime] use, with the matching
    order of a backtracking engine: [rmatch] lists the ways in which a
    pattern matches at the start of the text in order of preference, each
    with its named groups and the text left over. *)

Inductive regex : Type :=
| RLit (lit : string)               (* literal characters *)
| RSet (cls : ascii -> bool)        (* one character of a class *)
| RPlus (cls : ascii -> bool)       (* [cls+], greedy *)
| RSeq (r1 r2 : regex)
| RAlt (r1 r2 : regex)              (* [r1|r2] *)
| RGroup (name : string) (r : regex).

Definition captures : Type := list (string * string).

(** The remainders of [s] after one or more characters of [cls], the
    longest run first. *)
Fixpoint greedy_runs (cls : ascii -> bool) (s : string) : list string :=
  match s with
  | String c rest => if cls c then (greedy_runs cls rest ++ [rest])%list else []
  | EmptyString => []
  end.

(** The first [String.length s - String.length rest] characters of [s]. *)
Definition consumed (s rest : string) : string :=
  substring 0 (String.length s - String.length rest)%nat s.

Fixpoint rmatch (ignorecase : bool) (r : regex) (s : string)
  : list (captures * string) :=
  match r with
  | RLit lit =>
      match drop_prefix ignorecase lit s with
      | Some rest => [([], rest)]
      | None => []
      end
  | RSet cls =>
      match s with
      | String c rest => if cls c then [([], rest)] else []
      | EmptyString => []
      end
  | RPlus cls => map (fun rest => ([], rest)) (greedy_runs cls s)
  | RSeq r1 r2 =>
      flat_map (fun m1 =>
                  map (fun m2 => ((fst m1 ++ fst m2)%list, snd m2))
                      (rmatch ignorecase r2 (snd m1)))
               (rmatch ignorecase r1 s)
  | RAlt r1 r2 => (rmatch ignorecase r1 s ++ rmatch ignorecase r2 s)%list
  | RGroup name r1 =>
      map (fun m => ((fst m ++ [(name, consumed s (snd m))])%list, snd m))
          (rmatch ignorecase r1 s)
  end.

(** [pattern.match(s)]: the preferred match at the start of [s]. *)
Definition re_match (ignorecase : bool) (r : regex) (s : string)
  : option (captures * string) :=
  head (rmatch ignorecase r s).

(** [re.search(pattern, s)]: the preferred match at the first position that
    has one. *)
Fixpoint re_search (ignorecase : bool) (r : regex) (s : string)
  : option (captures * string) :=
  match re_match ignorecase r s with
  | Some m => Some m
  | None =>
      match s with
      | String _ rest => re_search ignorecase r rest
      | EmptyString => None
      end
  end.

(** [a|b|...] of a non-empty list of alternatives; the empty pattern when
    there is none. *)
Fixpoint alternation (rs : list regex) : regex :=
  match rs with
  | [] => RLit EmptyString
  | [r] => r
  | r :: rest => RAlt r (alternation rest)
  end.

(** [re.sub] of a pattern that is one negated character class: every
    character outside [allowed] is replaced by [repl]. *)
Fixpoint re_sub_not_in (allowed : ascii -> bool) (repl : string) (s : string)
  : string :=
  match s with
  | String c rest =>
      (if allowed c then String c EmptyString else repl)
        ++ re_sub_not_in allowed repl rest
  | EmptyString => EmptyString
  end.

(* ================================================================== *)
(** * The dispatch table ([supported_events]) *)

(** The extractor functions of [epagneul.core.evtx_events], by name. *)
Inductive Extractor : Type :=
| parse_3
| parse_4648
| parse_logon_successfull
| parse_logon_failed
| parse_4672
| parse_4768
| parse_tgs
| parse_tgt_failed
| parse_ntlm_request
| parse_add_group.

Definition supported_events : list (Z * Extractor) :=
  [ (3, parse_3);
    (4648, parse_4648);
    (4624, parse_logon_successfull);
    (4625, parse_logon_failed);
    (4672, parse_4672);
    (4768, parse_4768);
    (4769, parse_tgs);
    (4771, parse_tgt_failed);
    (4776, parse_ntlm_request);
    (4728, parse_add_group);
    (4732, parse_add_group);
    (4756, parse_add_group) ].

(** [supported_events.keys()] *)
Definition keys {V : Type} (d : list (Z * V)) : list Z := map fst d.

(** [d[k]] when [k in d]. *)
Fixpoint dict_get {V : Type} (d : list (Z * V)) (k : Z) : option V :=
  match d with
  | (k', v) :: rest => if k' =? k then Some v else dict_get rest k
  | [] => None
  end.

(** [re.compile(f'<EventID>({"|".join([str(i) for i in keys])})<')] *)
Definition usefull_events_pattern (ids : list Z) : regex :=
  RSeq (RLit "<EventID>")
       (RSeq (RGroup "1" (alternation (map (fun i => RLit (str i)) ids)))
             (RLit "<")).

Definition USEFULL_EVENTS_STR : regex :=
  usefull_events_pattern (keys supported_events).

(** The test of [parse_evtx]: [re.search(USEFULL_EVENTS_STR, data)]. *)
Definition prefilter (data : string) : bool :=
  match re_search false USEFULL_EVENTS_STR data with
  | Some _ => true
  | None => false
  end.

(* ================================================================== *)
(** * Built-in [int] of a string *)

(** The digits of a decimal literal, single underscores allowed between
    them; [prev] says that the previous character was a digit. *)
Fixpoint parse_digits (s : string) (acc : Z) (prev : bool) : option Z :=
  match s with
  | String c rest =>
      if is_digit c then parse_digits rest (10 * acc + (code c - 48)) true
      else if Ascii.eqb c "_" && prev then parse_digits rest acc false
      else None
  | EmptyString => if prev then Some acc else None
  end.

(** [int(s)]: white space around an optionally signed decimal literal;
    [ValueError] otherwise. *)
Definition py_int (s : string) : result Z :=
  let signed :=
    match strip s with
    | String "-" rest => (-1, rest)
    | String "+" rest => (1, rest)
    | body => (1, body)
    end in
  match parse_digits (snd signed) 0 false with
  | Some n => Ok (fst signed * n)
  | None => Raise ValueError
  end.

(* ================================================================== *)
(** * Dates and times (module [datetime]) *)

Record datetime : Type := mkdatetime {
  year : Z; month : Z; day : Z;
  hour : Z; minute : Z; second : Z; microsecond : Z
}.

Definition is_leap (y : Z) : bool :=
  (y mod 4 =? 0) && (negb (y mod 100 =? 0) || (y mod 400 =? 0)).

(** Days of month [m] in a year that is not leap. *)
Definition DAYS_IN_MONTH (m : Z) : Z :=
  nth (Z.to_nat m) [-1; 31; 28; 31; 30; 31; 30; 31; 31; 30; 31; 30; 31] 0.

Definition days_in_month (y m : Z) : Z :=
  if (m =? 2) && is_leap y then 29 else DAYS_IN_MONTH m.

(** Days before the first day of month [m] in a year that is not leap. *)
Definition DAYS_BEFORE_MONTH (m : Z) : Z :=
  nth (Z.to_nat m) [0; 0; 31; 59; 90; 120; 151; 181; 212; 243; 273; 304; 334] 0.

Definition days_before_year (y : Z) : Z :=
  let p := y - 1 in p * 365 + p / 4 - p / 100 + p / 400.

Definition days_before_month (y m : Z) : Z :=
  DAYS_BEFORE_MONTH m + (if (2 <? m) && is_leap y then 1 else 0).

(** [date.toordinal()]: 1 for 0001-01-01. *)
Definition ymd2ord (y m d : Z) : Z :=
  days_before_year y + days_before_month y m + d.

Definition MAXORDINAL : Z := 3652059.

(** [date.fromordinal(n)] *)
Definition ord2ymd (n0 : Z) : Z * Z * Z :=
  let n := n0 - 1 in
  let n400 := n / 146097 in
  let n := n mod 146097 in
  let n100 := n / 36524 in
  let n := n mod 36524 in
  let n4 := n / 1461 in
  let n := n mod 1461 in
  let n1 := n / 365 in
  let n := n mod 365 in
  let y := n400 * 400 + 1 + n100 * 100 + n4 * 4 + n1 in
  if (n1 =? 4) || (n100 =? 4) then (y - 1, 12, 31)
  else
    let leapyear := (n1 =? 3) && (negb (n4 =? 24) || (n100 =? 3)) in
    let m := Z.shiftr (n + 50) 5 in
    let preceding :=
      DAYS_BEFORE_MONTH m + (if (2 <? m) && leapyear then 1 else 0) in
    if n <? preceding then
      let m' := m - 1 in
      let preceding' :=
        preceding
        - (DAYS_IN_MONTH m' + (if (m' =? 2) && leapyear then 1 else 0)) in
      (y, m', n - preceding' + 1)
    else (y, m, n - preceding + 1).

(** The constructor [datetime(y, m, d, H, M, S, us)] with its range
    checks. *)
Definition make_datetime (y m d H M S us : Z) : result datetime :=
  if (1 <=? y) && (y <=? 9999) && (1 <=? m) && (m <=? 12)
     && (1 <=? d) && (d <=? days_in_month y m)
     && (0 <=? H) && (H <=? 23) && (0 <=? M) && (M <=? 59)
     && (0 <=? S) && (S <=? 59) && (0 <=? us) && (us <=? 999999)
  then Ok (mkdatetime y m d H M S us)
  else Raise ValueError.

(** [dt + datetime.timedelta(hours=h)]: [OverflowError] when the sum leaves
    the years 1 to 9999. *)
Definition add_hours (dt : datetime) (h : Z) : result datetime :=
  let seconds :=
    hour dt * 3600 + minute dt * 60 + second dt + h * 3600 in
  let days := ymd2ord (year dt) (month dt) (day dt) + seconds / 86400 in
  let rem := seconds mod 86400 in
  if (0 <? days) && (days <=? MAXORDINAL) then
    let '(y, m, d) := ord2ymd days in
    Ok (mkdatetime y m d (rem / 3600) (rem mod 3600 / 60) (rem mod 60)
                   (microsecond dt))
  else Raise OverflowError.

(* ================================================================== *)
(** * [datetime.strptime] (module [_strptime]) *)

Definition digit : regex := RSet is_digit.
Definition range (lo hi : ascii) : regex :=
  RSet (fun c => (code lo <=? code c) && (code c <=? code hi)).

(** The entries of [TimeRE] for the directives of the two formats. *)
Definition directive (d : ascii) : option regex :=
  match d with
  | "Y"%char => (* (?P<Y>\d\d\d\d) *)
      Some (RGroup "Y" (RSeq digit (RSeq digit (RSeq digit digit))))
  | "m"%char => (* (?P<m>1[0-2]|0[1-9]|[1-9]) *)
      Some (RGroup "m" (alternation
             [RSeq (RLit "1") (range "0" "2");
              RSeq (RLit "0") (range "1" "9");
              range "1" "9"]))
  | "d"%char => (* (?P<d>3[0-1]|[1-2]\d|0[1-9]|[1-9]| [1-9]) *)
      Some (RGroup "d" (alternation
             [RSeq (RLit "3") (range "0" "1");
              RSeq (range "1" "2") digit;
              RSeq (RLit "0") (range "1" "9");
              range "1" "9";
              RSeq (RLit " ") (range "1" "9")]))
  | "H"%char => (* (?P<H>2[0-3]|[0-1]\d|\d) *)
      Some (RGroup "H" (alternation
             [RSeq (RLit "2") (range "0" "3");
              RSeq (range "0" "1") digit;
              digit]))
  | "M"%char => (* (?P<M>[0-5]\d|\d) *)
      Some (RGroup "M" (alternation [RSeq (range "0" "5") digit; digit]))
  | "S"%char => (* (?P<S>6[0-1]|[0-5]\d|\d) *)
      Some (RGroup "S" (alternation
             [RSeq (RLit "6") (range "0" "1");
              RSeq (range "0" "5") digit;
              digit]))
  | _ => None
  end.

(** [TimeRE.pattern(format)]: a run of white space becomes [\s+], [%x] the
    group of the directive [x], any other character itself. [after_space]
    says that the previous character of the format was white space. *)
Fixpoint time_re (format : string) (after_space : bool) : option regex :=
  match format with
  | EmptyString => Some (RLit EmptyString)
  | String c rest =>
      if is_space c then
        if after_space then time_re rest true
        else r ← time_re rest true; Some (RSeq (RPlus is_space) r)
      else if Ascii.eqb c "%" then
        match rest with
        | String d rest' =>
            g ← directive d; r ← time_re rest' false; Some (RSeq g r)
        | EmptyString => None
        end
      else r ← time_re rest false; Some (RSeq (RLit (String c EmptyString)) r)
  end.

(** [found_dict[name]] converted by [int], [default] when the format has no
    such group. *)
Definition group_int (found : captures) (name : string) (default : Z)
  : result Z :=
  match find (fun g => String.eqb (fst g) name) found with
  | Some g => py_int (snd g)
  | None => Ok default
  end.

(** [datetime.datetime.strptime(data_string, format)]: the compiled format
    is matched (ignoring case) at the start of [data_string] and has to
    consume all of it; every failure is a [ValueError]. *)
Definition strptime (data_string format : string) : result datetime :=
  match time_re format false with
  | None => Raise ValueError
  | Some format_regex =>
      match re_match true format_regex data_string with
      | None => Raise ValueError
      | Some (found, EmptyString) =>
          y ← group_int found "Y" 1900;
          m ← group_int found "m" 1;
          d ← group_int found "d" 1;
          H ← group_int found "H" 0;
          M ← group_int found "M" 0;
          S ← group_int found "S" 0;
          make_datetime y m d H M S 0
      | Some (_, String _ _) => Raise ValueError
      end
  end.

(* ================================================================== *)
(** * [convert_logtime] *)

(** The class [0-9-:\s] of the pattern of [convert_logtime]. *)
Definition logtime_char (c : ascii) : bool :=
  is_digit c || Ascii.eqb c "-" || Ascii.eqb c ":" || is_space c.

(** [re.sub("[^0-9-:\s]", " ", logtime.split(".")[0]).strip()] *)
Definition tzless_of (logtime : string) : string :=
  strip (re_sub_not_in logtime_char " " (split_first "." logtime)).

(** The [return] statement that produced the result. *)
Inductive attempt : Type := SpaceSeparated | TSeparated.

(** [convert_logtime] with the [return] statement it left through. The
    [except:] clause is bare: any exception of the first attempt, of
    [strptime] or of the addition, leads to the second one. *)
Definition convert_logtime_via (logtime : string) (tzone : Z)
  : result (attempt * datetime) :=
  let tzless := tzless_of logtime in
  match dt ← strptime tzless "%Y-%m-%d %H:%M:%S"; add_hours dt tzone with
  | Ok t => Ok (SpaceSeparated, t)
  | Raise _ =>
      dt ← strptime tzless "%Y-%m-%dT%H:%M:%S";
      t ← add_hours dt tzone;
      Ok (TSeparated, t)
  end.

Definition convert_logtime (logtime : string) (tzone : Z) : result datetime :=
  t ← convert_logtime_via logtime tzone; Ok (snd t).

(** The default of the parameter [tzone]. *)
Definition default_tzone : Z := 1.

(* ================================================================== *)
(** * Notions used in the statements *)

(** [rest] is what remains of [s] after some prefix. *)
Definition suffix_of (rest s : string) : Prop := exists p, s = p ++ rest.

(** Every character of [s] is of the class [0-9-:\s]. *)
Fixpoint clean (s : string) : Prop :=
  match s with
  | String c rest => logtime_char c = true /\ clean rest
  | EmptyString => True
  end.

(** [s] with [f] applied to each character. *)
Fixpoint string_map (f : ascii -> ascii) (s : string) : string :=
  match s with
  | String c rest => String (f c) (string_map f rest)
  | EmptyString => EmptyString
  end.

(** A character of the class [0-9-:\s] is kept, any other becomes a
    space. *)
Definition blank (c : ascii) : ascii := if logtime_char c then c else " "%char.

(** [c] does not occur in [s]. *)
Fixpoint free_of (c : ascii) (s : string) : Prop :=
  match s with
  | String c' rest => c' <> c /\ free_of c rest
  | EmptyString => True
  end.

(* ================================================================== *)
(** * Parsed XML ([lxml.etree]) *)

(** An element: its tag, its attributes, the text before its first child
    ([None] when there is none) and its child elements in document
    order. *)
#[warnings="-register-all"]
Inductive Element : Type :=
| mkElement (tag : string) (attrib : list (string * string))
            (text : option string) (children : list Element).

Definition tag (e : Element) : string :=
  match e with mkElement t _ _ _ => t end.
Definition attrib (e : Element) : list (string * string) :=
  match e with mkElement _ a _ _ => a end.
Definition text (e : Element) : option string :=
  match e with mkElement _ _ t _ => t end.
Definition children (e : Element) : list Element :=
  match e with mkElement _ _ _ c => c end.

(** [element.get(key)] *)
Definition get (e : Element) (key : string) : option string :=
  option_map snd (find (fun a => String.eqb (fst a) key) (attrib e)).

(** The child steps of a location path, applied to a set of nodes. *)
Fixpoint select (steps : list string) (nodes : list Element) : list Element :=
  match steps with
  | [] => nodes
  | name :: rest =>
      select rest
        (flat_map (fun e => List.filter (fun c => String.eqb (tag c) name)
                                   (children e)) nodes)
  end.

(** [root.xpath(path)] for an absolute path of element names,
    [/name/name/...]: the elements it selects, in document order. *)
Definition xpath (root : Element) (path : string) : list Element :=
  match split "/" path with
  | EmptyString :: name :: steps =>
      if String.eqb (tag root) name then select steps [root] else []
  | _ => []
  end.

(** [l[0]] *)
Definition item0 {A : Type} (l : list A) : result A :=
  match l with
  | a :: _ => Ok a
  | [] => Raise IndexError
  end.

(* ================================================================== *)
(** * Events and the store *)

(** [class Event(BaseModel)] *)
Record Event : Type := mkEvent {
  event_id : Z;
  timestamp : datetime;
  data : list Element
}.

Inductive ObservableType : Type := USER | MACHINE | GROUP.

(** A value of a field of a model. *)
Inductive value : Type :=
| VNone
| VStr (s : string)
| VInt (i : Z)
| VType (t : ObservableType)
| VStrs (l : list string)
| VInts (l : list Z)
| VTimes (l : list datetime)
| VSet (s : gset string).

(** A model as its [dict()]: the fields in the order of declaration. *)
Definition fields : Type := list (string * value).

(** Modelled from the spec: the entities of [epagneul.models], which are
    not in this part of the repository. An entity has an id, a category, a
    label and, for a machine, the set of IP addresses seen for it. *)
Record Entity : Type := mkEntity {
  id : string;
  category : ObservableType;
  label : string;
  ips : gset string
}.

(** Modelled from the spec: the relationship of [epagneul.models], which is
    not in this part of the repository. It is keyed by source, target and
    event type, counts its occurrences, keeps their instants in the order
    met, and carries descriptive attributes. *)
Record Relationship : Type := mkRelationship {
  source : string;
  target : string;
  source_type : ObservableType;
  target_type : ObservableType;
  event_type : string;
  count : Z;
  timestamps : list datetime;
  attributes : list (string * value)
}.

(** Modelled from the spec: [Datastore] of [epagneul.core.store], which is
    not in this part of the repository: three tables of entities by id, a
    table of relationships by source, target and event type, and the
    earliest and latest instant observed. The tables keep the order of
    insertion. *)
Record Datastore : Type := mkDatastore {
  machines : list (string * Entity);
  users : list (string * Entity);
  groups : list (string * Entity);
  relationships : list (string * string * string * Relationship);
  start_time : option datetime;
  end_time : option datetime
}.

(** [Datastore()] *)
Definition new_store : Datastore := mkDatastore [] [] [] [] None None.

(** The instants of [datetime] in their order, as microseconds since
    0001-01-01. *)
Definition instant (t : datetime) : Z :=
  (((ymd2ord (year t) (month t) (day t) - 1) * 86400
    + hour t * 3600 + minute t * 60 + second t) * 1000000)
  + microsecond t.

Definition earlier (a b : datetime) : datetime :=
  if instant b <? instant a then b else a.
Definition later (a b : datetime) : datetime :=
  if instant a <? instant b then b else a.

(** Modelled from the spec: [Datastore.add_timestamp], the running
    (min, max) pair of the observation window. *)
Definition add_timestamp (store : Datastore) (t : datetime) : Datastore :=
  mkDatastore (machines store) (users store) (groups store)
              (relationships store)
              (Some (match start_time store with
                     | Some s => earlier s t
                     | None => t
                     end))
              (Some (match end_time store with
                     | Some e => later e t
                     | None => t
                     end)).

(** The observation window of a store. *)
Definition window (store : Datastore) : option datetime * option datetime :=
  (start_time store, end_time store).

(** The entities and relationships of a store. *)
Definition tables (store : Datastore) :=
  (machines store, users store, groups store, relationships store).

(* ================================================================== *)
(** * What the two modules call and is not in them *)

Class Collaborators : Type := {
  (** [PyEvtxParser(file_data).records()]: the decoder of the container
      raises, or yields the records in order; an item is the [data] of a
      record or the error the decoder raises at that point. *)
  evtx_records : string -> result (list (result string));
  (** [etree.fromstring(data, etree.XMLParser(resolve_entities=False))] *)
  etree_fromstring : string -> result Element;
  (** The call [extractor(store, event)] of a function of
      [epagneul.core.evtx_events]: the store it leaves, or the exception it
      raises. *)
  extract : Extractor -> Datastore -> Event -> result Datastore;
  (** [entity.finalize()] *)
  finalize : Entity -> Entity;
  (** [time.localtime(u)[:6]]: the year, month, day, hour, minute and
      second of local time at [u] seconds from 1970-01-01T00:00:00 UTC, as
      the C library gives them for the zone of the process, or the
      exception raised. *)
  localtime : Z -> result (Z * Z * Z * Z * Z * Z);
  (** [list(s)] of a set: its elements, each once, in the order in which
      the set iterates in this process. *)
  list_of_set : gset string -> list string;
  list_of_set_elements : forall s, list_of_set s ≡ₚ elements s;
  (** [f"{v}"] *)
  format : value -> string
}.

(* ================================================================== *)
(** * [core/evtx.py] *)

Definition dquote : ascii := "034"%char.

(** [xmlns="http://schemas.microsoft.com/win/2004/08/events/event"] *)
Definition EVENT_XMLNS : string :=
  "xmlns=" ++ String dquote
    ("http://schemas.microsoft.com/win/2004/08/events/event"
       ++ String dquote EmptyString).

Definition to_lxml `{Collaborators} (record_xml : string) : result Element :=
  let rep_xml := replace EVENT_XMLNS "" record_xml in
  let fin_xml := encode_utf8 rep_xml in
  etree_fromstring fin_xml.

(** [convert_logtime(node.get("SystemTime"))]: [None] has no [split]. *)
Definition convert_logtime_opt (logtime : option string) : result datetime :=
  match logtime with
  | Some s => convert_logtime s default_tzone
  | None => Raise AttributeError
  end.

(** [int(node.text)]: [int(None)] is a [TypeError]. *)
Definition int_opt (s : option string) : result Z :=
  match s with
  | Some s => py_int s
  | None => Raise TypeError
  end.

Definition get_event_from_xml `{Collaborators} (raw_xml_event : string)
  : result Event :=
  xml_event ← to_lxml raw_xml_event;
  id_node ← item0 (xpath xml_event "/Event/System/EventID");
  event_id ← int_opt (text id_node);
  time_node ← item0 (xpath xml_event "/Event/System/TimeCreated");
  timestamp ← convert_logtime_opt (get time_node "SystemTime");
  Ok (mkEvent event_id timestamp (xpath xml_event "/Event/EventData/Data")).

(** The body of the loop of [parse_evtx] for a record that passed the
    prefilter. *)
Definition process_record `{Collaborators} (store : Datastore) (data : string)
  : result Datastore :=
  event ← get_event_from_xml data;
  let store := add_timestamp store (timestamp event) in
  match dict_get supported_events (event_id event) with
  | Some extractor => extract extractor store event
  | None => Ok store
  end.

(** The loop of [parse_evtx] over the records, from a given store. *)
Fixpoint parse_records `{Collaborators} (records : list (result string))
         (store : Datastore) : result Datastore :=
  match records with
  | [] => Ok store
  | Raise e :: _ => Raise e
  | Ok data :: rest =>
      if prefilter data then
        store ← process_record store data;
        parse_records rest store
      else parse_records rest store
  end.

Definition parse_evtx `{Collaborators} (file_data : string) : result Datastore :=
  records ← evtx_records file_data;
  parse_records records new_store.

(* ================================================================== *)
(** * [core/neo4j.py] *)

(** [range(0, stop, step)] for [stop >= 0]. *)
Definition py_range (stop step : Z) : result (list Z) :=
  if step =? 0 then Raise ValueError
  else if step <? 0 then Ok []
  else Ok (map (fun i => Z.of_nat i * step)
               (seq 0 (Z.to_nat ((stop + step - 1) / step)))).

(** [l[a:b]] for [0 <= a]. *)
Definition slice {A : Type} (l : list A) (a b : Z) : list A :=
  firstn (Z.to_nat (b - a)) (skipn (Z.to_nat a) l).

(** [chunker(seq, size)], the batches in the order the generator yields
    them. *)
Definition chunker {A : Type} (seq : list A) (size : Z)
  : result (list (list A)) :=
  positions ← py_range (Z.of_nat (length seq)) size;
  Ok (map (fun pos => slice seq pos (pos + size)) positions).

(** [d[key] = v]: in place when [d] has the key, at the end otherwise. *)
Fixpoint dict_set (key : string) (v : value) (d : fields) : fields :=
  match d with
  | (k, old) :: rest =>
      if String.eqb k key then (k, v) :: rest
      else (k, old) :: dict_set key v rest
  | [] => [(key, v)]
  end.

(** [d.get(key)] *)
Definition dict_lookup (key : string) (d : fields) : option value :=
  option_map snd (find (fun kv => String.eqb (fst kv) key) d).

(** [d[key]] *)
Definition dict_item (key : string) (d : fields) : result value :=
  match dict_lookup key d with
  | Some v => Ok v
  | None => Raise KeyError
  end.

(** [model.dict(exclude=names)] from [model.dict()]. *)
Definition exclude (names : list string) (d : fields) : fields :=
  List.filter (fun kv => negb (existsb (String.eqb (fst kv)) names)) d.

(** Modelled from the spec: [Entity.dict()], the entity being of
    [epagneul.models], which is not in this part of the repository. *)
Definition entity_dict (e : Entity) : fields :=
  [ ("id", VStr (id e)); ("category", VType (category e));
    ("label", VStr (label e)); ("ips", VSet (ips e)) ].

(** Modelled from the spec: [Relationship.dict()], the relationship being
    of [epagneul.models], which is not in this part of the repository. *)
Definition relationship_dict (e : Relationship) : fields :=
  ([ ("source", VStr (source e)); ("target", VStr (target e));
    ("source_type", VType (source_type e));
    ("target_type", VType (target_type e));
    ("event_type", VStr (event_type e)); ("count", VInt (count e));
    ("timestamps", VTimes (timestamps e)) ]
  ++ attributes e)%list.

(** Modelled from the spec: [RelationshipInDB(...).dict()] for the keyword
    arguments [kwargs], the model being of [epagneul.models], which is not
    in this part of the repository: the row keeps the fields it is
    given. *)
Definition RelationshipInDB (kwargs : fields) : fields := kwargs.

(** [round(n / d)] for [0 < d]: the nearest integer, the even one of two
    that are equally near. *)
Definition round_half_even (n d : Z) : Z :=
  let q := n / d in
  let r := n mod d in
  if 2 * r <? d then q
  else if d <? 2 * r then q + 1
  else if Z.even q then q else q + 1.

(** [float(n)] of an [int]: the nearest binary64, [OverflowError] when
    there is none. *)
Definition float_of_int (n : Z) : result spec_float :=
  match binary_normalize 53 1024 n 0 false with
  | S754_infinity _ => Raise OverflowError
  | x => Ok x
  end.

(** The literal [1e6]. *)
Definition float_1e6 : spec_float := binary_normalize 53 1024 1000000 0 false.

(** [n / x] of an [int] and a [float]. *)
Definition int_truediv_float (n : Z) (x : spec_float) : result spec_float :=
  n ← float_of_int n;
  Ok (SFdiv 53 1024 n x).

(** [n + x] of an [int] and a [float]. *)
Definition int_add_float (n : Z) (x : spec_float) : result spec_float :=
  n ← float_of_int n;
  Ok (SFadd 53 1024 n x).

(** [round(x)] of a [float]: the nearest integer, the even one of two that
    are equally near. *)
Definition float_round (x : spec_float) : result Z :=
  match x with
  | S754_zero _ => Ok 0
  | S754_finite s m e =>
      Ok (cond_Zopp s (if 0 <=? e then Zpos m * 2 ^ e
                       else round_half_even (Zpos m) (2 ^ (- e))))
  | S754_infinity _ => Raise OverflowError
  | S754_nan => Raise ValueError
  end.

(** [(dt - epoch) // timedelta(0, 1)] for [epoch = datetime(1970, 1, 1)]:
    the whole seconds from the epoch to [dt], both read as naive values. *)
Definition seconds_from_epoch (dt : datetime) : Z :=
  (ymd2ord (year dt) (month dt) (day dt) - ymd2ord 1970 1 1) * 86400
  + hour dt * 3600 + minute dt * 60 + second dt.

(** [local(u)] of [datetime._mktime]: local time at [u], read as a naive
    value, in seconds from the epoch; [datetime(y, m, d, hh, mm, ss)] is a
    [ValueError] for a year outside 1 to 9999. *)
Definition local `{Collaborators} (u : Z) : result Z :=
  '(y, m, d, hh, mm, ss) ← localtime u;
  dt ← make_datetime y m d hh mm ss 0;
  Ok (seconds_from_epoch dt).

Definition max_fold_seconds : Z := 24 * 3600.

(** [self._mktime()] of module [datetime], as [datetime.py] has it, for a
    naive value, whose [fold] is 0: the POSIX timestamp [u] with
    [local(u) = t]. The [assert a != b] of the second branch holds whenever
    it is reached. *)
Definition mktime `{Collaborators} (self : datetime) : result Z :=
  let t := seconds_from_epoch self in
  lt ← local t;
  let a := lt - t in
  let u1 := t - a in
  t1 ← local u1;
  let other (b : Z) : result Z :=
    let u2 := t - b in
    t2 ← local u2;
    if t2 =? t then Ok u2
    else if t1 =? t then Ok u1
    else Ok (Z.max u1 u2) in
  if t1 =? t then
    let u2 := u1 - max_fold_seconds in
    lt ← local u2;
    let b := lt - u2 in
    if a =? b then Ok u1 else other b
  else other (t1 - u1).

(** [datetime.timestamp(ts)] of a naive value:
    [s = self._mktime(); return s + self.microsecond / 1e6]. *)
Definition timestamp_of `{Collaborators} (ts : datetime) : result spec_float :=
  s ← mktime ts;
  fraction ← int_truediv_float (microsecond ts) float_1e6;
  int_add_float s fraction.

(** [int(round(datetime.timestamp(ts)))] *)
Definition epoch_seconds `{Collaborators} (ts : datetime) : result Z :=
  x ← timestamp_of ts;
  float_round x.

(** [[f(x) for x in l]]: the exception of the first element that has
    one. *)
Fixpoint result_map {A B : Type} (f : A -> result B) (l : list A)
  : result (list B) :=
  match l with
  | [] => Ok []
  | x :: rest => y ← f x; ys ← result_map f rest; Ok (y :: ys)
  end.

(** The six names left out of the tip. *)
Definition TIP_EXCLUDE : list string :=
  ["source"; "target"; "timestamps"; "count"; "source_type"; "target_type"].

(** The [tip] of [add_evtx_store]:
    ["<br>".join([f"{k}: {v}" for k, v in e.dict(exclude=...).items()])] *)
Definition tip_of `{Collaborators} (e : Relationship) : string :=
  join "<br>"
       (map (fun kv => fst kv ++ ": " ++ format (snd kv))
            (exclude TIP_EXCLUDE (relationship_dict e))).

(** The row of a group or of a user: [g.finalize(); g.dict()]. *)
Definition export_entity `{Collaborators} (g : Entity) : fields :=
  entity_dict (finalize g).

(** The row of a machine. *)
Definition export_machine `{Collaborators} (m : Entity) : fields :=
  let m := finalize m in
  let machine_dict := entity_dict m in
  dict_set "ips" (VStrs (list_of_set (ips m))) machine_dict.

(** [list(v)] of a list. *)
Definition value_list (v : value) : value := v.

(** The row of a relationship. The arguments are evaluated before the
    call, which is a [TypeError] when the relationship has a field named
    [tip]: the keyword would be given twice. *)
Definition export_event `{Collaborators} (e : Relationship) : result fields :=
  let kwargs :=
    exclude ["timestamps"; "source_type"; "target_type"]
            (relationship_dict e) in
  seconds ← result_map epoch_seconds (timestamps e);
  let tip := tip_of e in
  match dict_lookup "tip" kwargs with
  | Some _ => Raise TypeError
  | None =>
      let event :=
        RelationshipInDB
          (kwargs ++ [ ("timestamps", VInts seconds); ("tip", VStr tip) ])%list in
      Ok (match dict_lookup "timestamps" event with
          | Some v => dict_set "timestamps" (value_list v) event
          | None => event
          end)
  end.

(** [d.values()] of a table. *)
Definition values {K V : Type} (d : list (K * V)) : list V := map snd d.

Inductive query : Type := AddGroups | AddUsers | AddMachines | AddEvents.

(** A call of [session.run]: the query, its rows and the folder. *)
Record run : Type := mkRun {
  run_query : query;
  run_rows : list fields;
  run_folder : string
}.

Definition CHUNK_SIZE : Z := 10000.

(** The list [events] of [add_evtx_store]: the rows of the relationships
    of the store, or the exception of the first timestamp that has one. *)
Definition exported_events `{Collaborators} (store : Datastore)
  : result (list fields) :=
  result_map export_event (values (relationships store)).

(** [add_evtx_store(store, folder)]: the calls of [session.run] it makes,
    in order. The four lists are built before the session is opened: an
    exception of a timestamp leaves the graph without any call. *)
Definition add_evtx_store `{Collaborators} (store : Datastore) (folder : string)
  : result (list run) :=
  let groups := map export_entity (values (groups store)) in
  let users := map export_entity (values (users store)) in
  let machines := map export_machine (values (machines store)) in
  events ← exported_events store;
  chunks ← chunker events CHUNK_SIZE;
  Ok ([ mkRun AddGroups groups folder; mkRun AddUsers users folder;
        mkRun AddMachines machines folder ]
      ++ map (fun chunk => mkRun AddEvents chunk folder) chunks)%list.

(** The rows handed over by the calls for the events. *)
Definition event_batches (calls : list run) : list (list fields) :=
  map run_rows (List.filter (fun c => match run_query c with
                                 | AddEvents => true
                                 | _ => false
                                 end) calls).

(** The properties of a relationship of the graph after the [MERGE] of a
    row of the query for the events: [ON CREATE SET rel += row] when there
    was none, [ON MATCH SET rel.count = rel.count + row.count] otherwise. *)
Definition merge_row (stored : option fields) (row : fields) : fields :=
  match stored with
  | None => row
  | Some rel =>
      match dict_lookup "count" rel, dict_lookup "count" row with
      | Some (VInt a), Some (VInt b) => dict_set "count" (VInt (a + b)) rel
      | _, _ => rel
      end
  end.

(** The relationship of the graph created from [row] and then matched by
    [later] rows. *)
Definition stored_rel (row : fields) (later : list fields) : fields :=
  fold_left (fun rel r => merge_row (Some rel) r) later (merge_row None row).

(* ================================================================== *)
(** * A concrete setting for the examples

    The theorems hold for every behaviour of the collaborators. The
    examples run the two modules with the ones below: a parser for a
    subset of XML, one extractor that follows the contract of the spec,
    UTC as the zone of the process, sets that iterate in the order of
    their elements. *)

Fixpoint take_while (p : ascii -> bool) (s : string) : string * string :=
  match s with
  | String c rest =>
      if p c then let (taken, left) := take_while p rest in (String c taken, left)
      else (EmptyString, s)
  | EmptyString => (EmptyString, EmptyString)
  end.

Definition is_letter (c : ascii) : bool :=
  ((65 <=? code c) && (code c <=? 90)) || ((97 <=? code c) && (code c <=? 122)).

Definition is_name_start (c : ascii) : bool := is_letter c || Ascii.eqb c "_".

Definition is_name_char (c : ascii) : bool :=
  is_letter c || is_digit c || Ascii.eqb c "_" || Ascii.eqb c "-"
  || Ascii.eqb c ".".

(** White space of XML. *)
Definition is_xml_space (c : ascii) : bool :=
  (code c =? 32) || (code c =? 9) || (code c =? 10) || (code c =? 13).

(** Character data without references: printable ASCII and white space,
    neither ['<'] nor ['&']. *)
Definition is_text_char (c : ascii) : bool :=
  (is_xml_space c || ((32 <=? code c) && (code c <? 127)))
  && negb (Ascii.eqb c "<") && negb (Ascii.eqb c "&").

Definition take_name (s : string) : option (string * string) :=
  match s with
  | String c _ => if is_name_start c then Some (take_while is_name_char s) else None
  | EmptyString => None
  end.

Definition skip_space (s : string) : string := snd (take_while is_xml_space s).

(** The attributes of a start tag, each after white space, no name twice,
    the value between two quotes of one kind. *)
Fixpoint parse_attributes (fuel : nat) (s : string)
  : option (list (string * string) * string) :=
  match fuel with
  | O => None
  | S fuel =>
      let s1 := skip_space s in
      match take_name s1 with
      | None => Some ([], s1)
      | Some (name, s2) =>
          if String.eqb s1 s then None
          else
            match skip_space s2 with
            | String "=" s3 =>
                match skip_space s3 with
                | String q s4 =>
                    if Ascii.eqb q dquote || Ascii.eqb q "'" then
                      let (v, s5) :=
                        take_while (fun c => is_text_char c && negb (Ascii.eqb c q)) s4 in
                      match s5 with
                      | String q' s6 =>
                          if Ascii.eqb q' q then
                            match parse_attributes fuel s6 with
                            | Some (more, s7) =>
                                if existsb (fun a => String.eqb (fst a) name) more
                                then None
                                else Some ((name, v) :: more, s7)
                            | None => None
                            end
                          else None
                      | EmptyString => None
                      end
                    else None
                | EmptyString => None
                end
            | _ => None
            end
      end
  end.

(** The rest of [s] after the end tag of [name]. *)
Definition end_tag (name s : string) : option string :=
  match s with
  | String "<" (String "/" s1) =>
      match drop_prefix false name s1 with
      | Some s2 =>
          match skip_space s2 with
          | String ">" rest => Some rest
          | _ => None
          end
      | None => None
      end
  | _ => None
  end.

(** An element, and the elements up to the end tag of their parent. The
    text after a child is dropped: the two modules do not read it. *)
Fixpoint parse_element (fuel : nat) (s : string) : option (Element * string) :=
  match fuel with
  | O => None
  | S fuel =>
      match s with
      | String "<" s1 =>
          match take_name s1 with
          | Some (name, s2) =>
              match parse_attributes (S (String.length s2)) s2 with
              | Some (attrs, String "/" (String ">" rest)) =>
                  Some (mkElement name attrs None [], rest)
              | Some (attrs, String ">" s4) =>
                  let (txt, s5) := take_while is_text_char s4 in
                  match parse_children fuel s5 with
                  | Some (kids, s6) =>
                      match end_tag name s6 with
                      | Some rest =>
                          Some (mkElement name attrs
                                  (match txt with
                                   | EmptyString => None
                                   | _ => Some txt
                                   end) kids, rest)
                      | None => None
                      end
                  | None => None
                  end
              | _ => None
              end
          | None => None
          end
      | _ => None
      end
  end
with parse_children (fuel : nat) (s : string) : option (list Element * string) :=
  match fuel with
  | O => None
  | S fuel =>
      match s with
      | String "<" (String "/" _) => Some ([], s)
      | String "<" _ =>
          match parse_element fuel s with
          | Some (e, s1) =>
              match parse_children fuel (snd (take_while is_text_char s1)) with
              | Some (es, s2) => Some (e :: es, s2)
              | None => None
              end
          | None => None
          end
      | _ => None
      end
  end.

(** The text after the [?>] that closes a declaration. *)
Fixpoint after_declaration (s : string) : option string :=
  match s with
  | String "?" (String ">" rest) => Some rest
  | String _ rest => after_declaration rest
  | EmptyString => None
  end.

(** The tags in Clark's notation: an element in the scope of a default
    namespace [ns] has the tag [{ns}name], and the declaration is not an
    attribute. *)
Fixpoint qualify (ns : string) (e : Element) : Element :=
  let ns' :=
    match find (fun a => String.eqb (fst a) "xmlns") (attrib e) with
    | Some a => snd a
    | None => ns
    end in
  mkElement
    (match ns' with
     | EmptyString => tag e
     | _ => "{" ++ ns' ++ "}" ++ tag e
     end)
    (List.filter (fun a => negb (String.eqb (fst a) "xmlns")) (attrib e))
    (text e)
    (map (qualify ns') (children e)).

(** A document: an optional declaration, one element, white space around
    it. Anything else is an [XMLSyntaxError]. *)
Definition xml_fromstring (doc : string) : result Element :=
  let body :=
    match drop_prefix false "<?xml" doc with
    | Some rest => after_declaration rest
    | None => Some doc
    end in
  match body with
  | Some body =>
      match parse_element (S (String.length body)) (skip_space body) with
      | Some (e, rest) =>
          match skip_space rest with
          | EmptyString => Ok (qualify EmptyString e)
          | _ => Raise XMLSyntaxError
          end
      | None => Raise XMLSyntaxError
      end
  | None => Raise XMLSyntaxError
  end.

(** Create or merge an entity in a table. *)
Fixpoint upsert_entity (e : Entity) (table : list (string * Entity))
  : list (string * Entity) :=
  match table with
  | (k, old) :: rest =>
      if String.eqb k (id e)
      then (k, mkEntity (id old) (category old) (label old) (ips old ∪ ips e))
             :: rest
      else (k, old) :: upsert_entity e rest
  | [] => [(id e, e)]
  end.

(** Create a relationship with one occurrence at [t], or count one more
    occurrence at [t] for the one of the same key. *)
Fixpoint upsert_relationship (r : Relationship) (t : datetime)
         (table : list (string * string * string * Relationship))
  : list (string * string * string * Relationship) :=
  match table with
  | ((s, d, ev), old) :: rest =>
      if String.eqb s (source r) && String.eqb d (target r)
         && String.eqb ev (event_type r)
      then ((s, d, ev),
            mkRelationship (source old) (target old) (source_type old)
                           (target_type old) (event_type old) (count old + 1)
                           (timestamps old ++ [t]) (attributes old)) :: rest
      else ((s, d, ev), old) :: upsert_relationship r t rest
  | [] =>
      [ ((source r, target r, event_type r),
         mkRelationship (source r) (target r) (source_type r) (target_type r)
                        (event_type r) 1 [t] (attributes r)) ]
  end.

(** The text of the [n]-th field of an event, empty when there is none. *)
Definition field (ev : Event) (n : nat) : string :=
  match nth_error (data ev) n with
  | Some d => match text d with Some s => s | None => EmptyString end
  | None => EmptyString
  end.

(** Modelled from the spec: an extractor, the functions of
    [epagneul.core.evtx_events] not being in this part of the repository.
    It upserts a user named by the first field, a machine named by the
    second and one relationship between them at the instant of the event,
    and leaves the observation window alone. *)
Definition sample_extract (h : Extractor) (store : Datastore) (ev : Event)
  : result Datastore :=
  let user := mkEntity (field ev 0) USER (field ev 0) ∅ in
  let machine := mkEntity (field ev 1) MACHINE (field ev 1) ∅ in
  let r := mkRelationship (id user) (id machine) USER MACHINE
                          (str (event_id ev)) 1 [] [] in
  Ok (mkDatastore (upsert_entity machine (machines store))
                  (upsert_entity user (users store))
                  (groups store)
                  (upsert_relationship r (timestamp ev) (relationships store))
                  (start_time store) (end_time store)).

(** [f"{v}"] of the values of the examples. *)
Definition sample_format (v : value) : string :=
  match v with
  | VNone => "None"
  | VStr s => s
  | VInt i => str i
  | VType USER => "USER"
  | VType MACHINE => "MACHINE"
  | VType GROUP => "GROUP"
  | VStrs l => "[" ++ join ", " l ++ "]"
  | VInts l => "[" ++ join ", " (map str l) ++ "]"
  | VTimes l => "[" ++ join ", " (map (fun t => str (instant t)) l) ++ "]"
  | VSet s => "{" ++ join ", " (elements s) ++ "}"
  end.

(** [time.localtime(u)[:6]] in a process whose zone is UTC. The calendar
    repeats every 146097 days, which are 400 years: the shift keeps the
    ordinal positive for the years before year 1. *)
Definition sample_localtime (u : Z) : result (Z * Z * Z * Z * Z * Z) :=
  let days := u / 86400 in
  let rem := u mod 86400 in
  let '(y, m, d) := ord2ymd (days + ymd2ord 1970 1 1 + 146097) in
  Ok (y - 400, m, d, rem / 3600, rem mod 3600 / 60, rem mod 60).

(** The setting in which the container at a path of [files] decodes to the
    records given for it, and no other path can be decoded. *)
Definition sample (files : list (string * list (result string)))
  : Collaborators :=
  {| evtx_records path :=
       match find (fun f => String.eqb (fst f) path) files with
       | Some f => Ok (snd f)
       | None => Raise RuntimeError
       end;
     etree_fromstring := xml_fromstring;
     extract := sample_extract;
     finalize e := e;
     localtime := sample_localtime;
     list_of_set := elements;
     list_of_set_elements s := reflexivity (elements s);
     format := sample_format |}.

(** A record of event [id] at [time] with the two fields [user] and
    [machine], in the namespace of the event schema. *)
Definition record_xml (id time user machine : string) : string :=
  "<?xml version='1.0' encoding='utf-8'?><Event " ++ EVENT_XMLNS
  ++ "><System><EventID>" ++ id ++ "</EventID><TimeCreated SystemTime='"
  ++ time ++ "'/></System><EventData><Data Name='TargetUserName'>" ++ user
  ++ "</Data><Data Name='WorkstationName'>" ++ machine
  ++ "</Data></EventData></Event>".

(** A logon (4624) of alice on SRV01 at 10:00. *)
Definition logon_alice : string :=
  record_xml "4624" "2021-12-09T10:00:00.123456Z" "alice" "SRV01".

(** A process creation (4688, not in the dispatch table) at 09:00, well
    formed. *)
Definition process_creation : string :=
  record_xml "4688" "2021-12-09T09:00:00.500000Z" "bob" "SRV02".

(** An event 9999 at 08:00 that quotes the id of another event in its
    data. *)
Definition quoting_event : string :=
  "<Event><System><EventID>9999</EventID>"
  ++ "<TimeCreated SystemTime='2021-12-09 08:00:00'/></System>"
  ++ "<EventData><EventID>4624</EventID></EventData></Event>".

(** A logon cut short: not well-formed. *)
Definition truncated : string := "<Event><System><EventID>4624<".

(** No [System/EventID]. *)
Definition no_event_id : string :=
  "<Event><System><TimeCreated SystemTime='2021-12-09 10:00:00'/></System>"
  ++ "<EventData><EventID>4624</EventID></EventData></Event>".

(** No [System/TimeCreated]. *)
Definition no_time_created : string :=
  "<Event><System><EventID>4624</EventID></System><EventData/></Event>".

(** A timestamp in neither format. *)
Definition bad_time : string :=
  "<Event><System><EventID>4624</EventID>"
  ++ "<TimeCreated SystemTime='09/12/2021 10:00'/></System>"
  ++ "<EventData/></Event>".

(** No [EventData]. *)
Definition no_event_data : string :=
  "<Event><System><EventID>4624</EventID>"
  ++ "<TimeCreated SystemTime='2021-12-09 10:00:00'/></System></Event>".

(** [parse_evtx] on a container that decodes to [records]. *)
Definition ingest (records : list (result string)) : result Datastore :=
  @parse_evtx (sample [("/data/filtered.evtx", records)]) "/data/filtered.evtx".

(** The observation window [parse_evtx] leaves for [records]. *)
Definition ingest_window (records : list (result string))
  : result (option datetime * option datetime) :=
  s ← ingest records; Ok (window s).

(** Two logons of alice on SRV01, the later one met first. *)
Definition logons_alice : Relationship :=
  mkRelationship "alice" "SRV01" USER MACHINE "4624" 2
                 [mkdatetime 2021 12 9 11 0 0 0; mkdatetime 2021 12 9 10 5 0 0]
                 [("logon_type", VInt 3); ("auth_package", VStr "NTLM")].

(** The row [add_evtx_store] exports for the logons of alice. *)
Definition logons_alice_row : fields :=
  match @export_event (sample []) logons_alice with
  | Ok row => row
  | Raise _ => []
  end.

(** A store with the logons of alice. *)
Definition store_alice : Datastore :=
  mkDatastore [("SRV01", mkEntity "SRV01" MACHINE "SRV01" ∅)]
              [("alice", mkEntity "alice" USER "alice" ∅)] []
              [("alice", "SRV01", "4624", logons_alice)] None None.



(** A machine seen under two addresses. *)
Definition srv01 : Entity :=
  mkEntity "SRV01" MACHINE "SRV01" ({["10.0.0.1"; "10.0.0.2"]} : gset string).

(* ================================================================== *)
(** * Further notions used in the statements *)

(** An item of the stream that reaches the body of the loop of
    [parse_evtx] or ends it: an error of the decoder, or a record the
    prefilter accepts. *)
Definition reaches_parser (item : result string) : bool :=
  match item with
  | Ok data => prefilter data
  | Raise _ => true
  end.

(* ================================================================== *)
(** * [core/neo4j.py]: folders and the graph *)







#[global] Instance datetime_eq_dec : EqDecision datetime.
Proof. solve_decision. Defined.

#[global] Instance ObservableType_eq_dec : EqDecision ObservableType.
Proof. solve_decision. Defined.

#[global] Instance value_eq_dec : EqDecision value.
Proof. solve_decision. Defined.

(** The dict [nodes] of [get_graph]: the data of a node of the display
    under its key, in the order of insertion. *)
Definition node_table : Type := list (value * fields).

(** [key in nodes], [nodes[key]] *)
Fixpoint table_get (key : value) (nodes : node_table) : option fields :=
  match nodes with
  | (k, n) :: rest => if bool_decide (k = key) then Some n else table_get key rest
  | [] => None
  end.

(** [nodes[key] = n] *)
Fixpoint table_set (key : value) (n : fields) (nodes : node_table)
  : node_table :=
  match nodes with
  | (k, old) :: rest =>
      if bool_decide (k = key) then (k, n) :: rest
      else (k, old) :: table_set key n rest
  | [] => [(key, n)]
  end.

(** [len(v)] *)
Definition py_len (v : value) : result Z :=
  match v with
  | VStr s => Ok (Z.of_nat (String.length s))
  | VStrs l => Ok (Z.of_nat (length l))
  | VInts l => Ok (Z.of_nat (length l))
  | VTimes l => Ok (Z.of_nat (length l))
  | VSet s => Ok (Z.of_nat (size s))
  | VNone | VInt _ | VType _ => Raise TypeError
  end.

(** [Observable(...)] for the keyword arguments [kwargs]: the model is of
    [epagneul.models], which is not in this part of the repository, and is
    taken to keep the fields it is given. *)
Definition Observable (kwargs : fields) : fields := kwargs.

(** The node that stands for a community. *)
Definition compound_node (compound_id : string) : fields :=
  Observable [ ("id", VStr compound_id); ("category", VStr "COMPOUND");
               ("border_width", VInt 1); ("border_color", VStr "#222023") ].

(** [_get_or_add_node(node)] of [get_graph]: the dict it leaves and the id
    it returns. *)
Definition get_or_add_node `{Collaborators} (nodes : node_table) (node : fields)
  : result (node_table * value) :=
  node_id ← dict_item "id" node;
  match table_get node_id nodes with
  | Some known => known_id ← dict_item "id" known; Ok (nodes, known_id)
  | None =>
      let new_node := Observable node in
      label ← dict_item "label" new_node;
      len ← py_len label;
      let new_node := dict_set "width" (VInt (10 + len * 11)) new_node in
      algo_lpa ← dict_item "algo_lpa" node;
      let compound_id := "Compound-" ++ format algo_lpa in
      let nodes :=
        match table_get (VStr compound_id) nodes with
        | Some _ => nodes
        | None => table_set (VStr compound_id) (compound_node compound_id) nodes
        end in
      let new_node := dict_set "parent" (VStr compound_id) new_node in
      let nodes := table_set node_id new_node nodes in
      new_id ← dict_item "id" new_node;
      Ok (nodes, new_id)
  end.

(** The data of the edge of a row of the result: the properties of the
    relationship with the ids of its two nodes, the count appended to the
    tip, and an id of its own, which is a [TypeError] when the relationship
    has a property of this name. *)
Definition get_graph_edge `{Collaborators} (rel : fields)
           (source_id target_id : value) (uuid : string) : result fields :=
  let rel := dict_set "source" source_id rel in
  let rel := dict_set "target" target_id rel in
  tip ← dict_item "tip" rel;
  count ← dict_item "count" rel;
  match tip with
  | VStr tip =>
      let rel := dict_set "tip" (VStr (tip ++ "<br>Count: " ++ format count)) rel in
      match dict_lookup "id" rel with
      | Some _ => Raise TypeError
      | None => Ok (RelationshipInDB (rel ++ [("id", VStr uuid)])%list)
      end
  | _ => Raise TypeError
  end.

(** The loop of [get_graph] over the rows [(source, rel, target)] of the
    result; [uuid k] is the [uuid4().hex] of the edge of index [k]. *)
Fixpoint get_graph_rows `{Collaborators} (uuid : nat -> string)
         (res : list (fields * fields * fields)) (nodes : node_table)
         (edges : list fields) : result (node_table * list fields) :=
  match res with
  | [] => Ok (nodes, edges)
  | (source, rel, target) :: rest =>
      s ← get_or_add_node nodes source;
      t ← get_or_add_node (fst s) target;
      edge ← get_graph_edge rel (snd s) (snd t) (uuid (length edges));
      get_graph_rows uuid rest (fst t) (edges ++ [edge])
  end.

(** [get_graph(folder)], from the rows its query returns: the nodes and
    the edges of the display. *)
Definition get_graph `{Collaborators} (uuid : nat -> string)
           (res : list (fields * fields * fields))
  : result (list fields * list fields) :=
  r ← get_graph_rows uuid res [] [];
  Ok (values (fst r), snd r).


(** The keys of the dict [nodes]. *)
Definition table_keys (nodes : node_table) : list value := map fst nodes.

(** What the dict [nodes] of [get_graph] keeps true: a node is under its
    own id, and the parent of a node that has one is a key of the dict. *)
Definition table_ok (nodes : node_table) : Prop :=
  NoDup (table_keys nodes)
  /\ (forall k n, In (k, n) nodes -> dict_lookup "id" n = Some k)
  /\ (forall k n p, In (k, n) nodes -> dict_lookup "parent" n = Some p ->
        In p (table_keys nodes)).

(** The edge [e] joins the two nodes of the row [row], which are both in
    the dict [nodes]. *)
Definition edge_of_row (nodes : node_table) (row : fields * fields * fields)
           (e : fields) : Prop :=
  exists s t,
    dict_lookup "id" (fst (fst row)) = Some s
    /\ dict_lookup "id" (snd row) = Some t
    /\ dict_lookup "source" e = Some s
    /\ dict_lookup "target" e = Some t
    /\ In s (table_keys nodes) /\ In t (table_keys nodes).

(** Two nodes of the graph, of one community, and the ids of the edges. *)
Definition node_alice : fields :=
  [ ("id", VStr "alice"); ("label", VStr "alice"); ("algo_lpa", VInt 7) ].

Definition node_srv01 : fields :=
  [ ("id", VStr "SRV01"); ("label", VStr "SRV01"); ("algo_lpa", VInt 7) ].

Definition sample_uuid (k : nat) : string := "edge" ++ str (Z.of_nat k).

(** The result of the query of [get_graph] for the logons of alice. *)
Definition sample_rows : list (fields * fields * fields) :=
  [ (node_alice, logons_alice_row, node_srv01) ].

(* ================================================================== *)
(** * Notions for the calendar *)

(** The month and the day of the month of the day of index [n] (from 0) of
    a year, as [date.fromordinal] computes them. *)
Definition month_day (leapyear : bool) (n : Z) : Z * Z :=
  let m := Z.shiftr (n + 50) 5 in
  let preceding :=
    DAYS_BEFORE_MONTH m + (if (2 <? m) && leapyear then 1 else 0) in
  if n <? preceding then
    let m' := m - 1 in
    let preceding' :=
      preceding
      - (DAYS_IN_MONTH m' + (if (m' =? 2) && leapyear then 1 else 0)) in
    (m', n - preceding' + 1)
  else (m, n - preceding + 1).

(** [month_day] gives a month from 1 to 12 and a day of that month which
    is the day of index [n] of the year. *)
Definition month_day_check (leapyear : bool) (n : Z) : bool :=
  let (m, d) := month_day leapyear n in
  (1 <=? m) && (m <=? 12) && (1 <=? d)
  && (d <=? DAYS_IN_MONTH m + (if (m =? 2) && leapyear then 1 else 0))
  && (DAYS_BEFORE_MONTH m + (if (2 <? m) && leapyear then 1 else 0) + d
      =? n + 1).

(** [check] holds from [n] up to [n + count - 1]. *)
Fixpoint holds_from (check : Z -> bool) (n : Z) (count : nat) : bool :=
  match count with
  | O => true
  | S count' => check n && holds_from check (n + 1) count'
  end.

(** A date and time of day that [datetime] can hold. *)
Definition valid_datetime (t : datetime) : Prop :=
  1 <= year t <= 9999 /\ 1 <= month t <= 12
  /\ 1 <= day t <= days_in_month (year t) (month t)
  /\ 0 <= hour t <= 23 /\ 0 <= minute t <= 59 /\ 0 <= second t <= 59
  /\ 0 <= microsecond t <= 999999.

(* ================================================================== *)
(** * Notions for texts *)

(** [s.find(old)]: the first position at which [old] occurs in [s]. *)
Fixpoint index_of (old s : string) : option nat :=
  match drop_prefix false old s with
  | Some _ => Some O
  | None =>
      match s with
      | String _ rest => option_map S (index_of old rest)
      | EmptyString => None
      end
  end.

(** [s[:n]] and [s[n:]] *)
Fixpoint string_take (n : nat) (s : string) : string :=
  match n, s with
  | S n', String c rest => String c (string_take n' rest)
  | _, _ => EmptyString
  end.

Fixpoint string_skip (n : nat) (s : string) : string :=
  match n, s with
  | S n', String _ rest => string_skip n' rest
  | _, _ => s
  end.

(* ================================================================== *)
(** * Notions for floats *)


(* ================================================================== *)
(** * Properties *)

(** ** Strings and matching *)

Lemma append_cons (c : ascii) (a b : string) :
  String c a ++ b = String c (a ++ b).
Proof. reflexivity. Qed.

Lemma append_empty (b : string) : EmptyString ++ b = b.
Proof. reflexivity. Qed.

Lemma append_assoc (a b c : string) : (a ++ b) ++ c = a ++ b ++ c.
Proof.
  induction a as [|x a IH].
  - reflexivity.
  - rewrite !append_cons. now rewrite IH.
Qed.

Lemma char_eqb_refl (ic : bool) (c : ascii) : char_eqb ic c c = true.
Proof. unfold char_eqb. destruct ic; apply Ascii.eqb_refl. Qed.

Lemma drop_prefix_append (ic : bool) (p s : string) :
  drop_prefix ic p (p ++ s) = Some s.
Proof.
  induction p as [|c p IH].
  - reflexivity.
  - rewrite append_cons. simpl. now rewrite char_eqb_refl.
Qed.

Lemma rmatch_lit_append (ic : bool) (p s : string) :
  rmatch ic (RLit p) (p ++ s) = [([], s)].
Proof. simpl. now rewrite drop_prefix_append. Qed.

Lemma rmatch_alternation (ic : bool) (rs : list regex) (r : regex)
      (s : string) (m : captures * string) :
  In r rs -> In m (rmatch ic r s) -> In m (rmatch ic (alternation rs) s).
Proof.
  induction rs as [|r0 rs IH]; intros Hr Hm.
  - destruct Hr.
  - destruct rs as [|r1 rs].
    + destruct Hr as [-> | []]. exact Hm.
    + change (alternation (r0 :: r1 :: rs))
        with (RAlt r0 (alternation (r1 :: rs))).
      simpl rmatch. apply in_or_app.
      destruct Hr as [-> | Hr]; [now left | right; now apply IH].
Qed.

Lemma rmatch_seq (ic : bool) (r1 r2 : regex) (s : string)
      (m1 m2 : captures * string) :
  In m1 (rmatch ic r1 s) -> In m2 (rmatch ic r2 (snd m1)) ->
  In ((fst m1 ++ fst m2)%list, snd m2) (rmatch ic (RSeq r1 r2) s).
Proof.
  intros H1 H2. simpl. apply in_flat_map. exists m1. split; [exact H1|].
  apply in_map_iff. now exists m2.
Qed.

Lemma rmatch_group (ic : bool) (name : string) (r : regex) (s : string)
      (m : captures * string) :
  In m (rmatch ic r s) ->
  In ((fst m ++ [(name, consumed s (snd m))])%list, snd m)
     (rmatch ic (RGroup name r) s).
Proof. intros H. simpl. apply in_map_iff. now exists m. Qed.

Lemma re_match_some (ic : bool) (r : regex) (s : string)
      (m : captures * string) :
  In m (rmatch ic r s) -> exists m', re_match ic r s = Some m'.
Proof.
  unfold re_match. destruct (rmatch ic r s) as [|m' l]; intros H.
  - destruct H.
  - now exists m'.
Qed.

Lemma re_search_append (ic : bool) (r : regex) (pre s : string)
      (m : captures * string) :
  In m (rmatch ic r s) -> exists m', re_search ic r (pre ++ s) = Some m'.
Proof.
  intros H. induction pre as [|c pre IH].
  - rewrite append_empty. destruct (re_match_some _ _ _ _ H) as [m' Hm'].
    destruct s; simpl; rewrite Hm'; now exists m'.
  - rewrite append_cons. simpl.
    destruct (re_match ic r (String c (pre ++ s))) as [m'|].
    + now exists m'.
    + exact IH.
Qed.

(** ** The dispatch table *)

Lemma dict_get_keys {V : Type} (d : list (Z * V)) (k : Z) :
  (exists v, dict_get d k = Some v) <-> In k (keys d).
Proof.
  induction d as [|[k' v'] d IH]; simpl.
  - split; [intros [v Hv]; discriminate | intros []].
  - destruct (Z.eqb_spec k' k) as [-> | Hne].
    + split; [now left | intros _; now exists v'].
    + rewrite IH. split; [now right | intros [H | H]; [contradiction | exact H]].
Qed.

(** C6. The dispatch table has an extractor for exactly the event ids 3,
    4624, 4625, 4648, 4672, 4768, 4769, 4771, 4776, 4728, 4732 and 4756, each
    of them once, and the three group-membership ids 4728, 4732 and 4756 map
    to one and the same handler, [parse_add_group]. *)
Theorem supported_events_table :
  (forall id : Z,
      (exists h, dict_get supported_events id = Some h) <->
      In id [3; 4624; 4625; 4648; 4672; 4768; 4769; 4771; 4776;
             4728; 4732; 4756])
  /\ NoDup (keys supported_events)
  /\ dict_get supported_events 4728 = Some parse_add_group
  /\ dict_get supported_events 4732 = Some parse_add_group
  /\ dict_get supported_events 4756 = Some parse_add_group.
Proof.
  split; [|split; [|repeat split]].
  - intros id. rewrite dict_get_keys. cbn [keys supported_events map fst In].
    intuition.
  - apply (bool_decide_unpack _). vm_compute. reflexivity.
Qed.

(** ** The prefilter *)

(** C4. A record text that contains [<EventID>id<] for a supported event id
    is accepted by the prefilter: the compiled alternation has no false
    negative. *)
Theorem prefilter_no_false_negative (pre post : string) (id : Z) :
  In id (keys supported_events) ->
  prefilter (pre ++ "<EventID>" ++ str id ++ "<" ++ post) = true.
Proof.
  intros Hid. unfold prefilter, USEFULL_EVENTS_STR, usefull_events_pattern.
  set (alt := alternation _).
  assert (Halt : In ([], "<" ++ post) (rmatch false alt (str id ++ "<" ++ post))).
  { apply rmatch_alternation with (r := RLit (str id)).
    - apply in_map_iff. now exists id.
    - rewrite rmatch_lit_append. now left. }
  apply rmatch_group with (name := "1") in Halt.
  assert (Hlt : In ([], post) (rmatch false (RLit "<") ("<" ++ post))).
  { rewrite rmatch_lit_append. now left. }
  pose proof (rmatch_seq false _ _ _ _ _ Halt Hlt) as Hseq.
  assert (Hev : In ([], str id ++ "<" ++ post)
                   (rmatch false (RLit "<EventID>")
                           ("<EventID>" ++ str id ++ "<" ++ post))).
  { rewrite rmatch_lit_append. now left. }
  pose proof (rmatch_seq false _ _ _ _ _ Hev Hseq) as Hall.
  destruct (re_search_append false _ pre _ _ Hall) as [m' Hm'].
  now rewrite Hm'.
Qed.

Lemma prefilter_no_false_negative_witness :
  In 4624 (keys supported_events)
  /\ prefilter ("<Event><System>" ++ "<EventID>" ++ str 4624 ++ "<"
                ++ "/EventID></System></Event>") = true.
Proof.
  split.
  - cbn. tauto.
  - apply (prefilter_no_false_negative
             "<Event><System>" "/EventID></System></Event>" 4624).
    cbn. tauto.
Defined.

(** ** What a match leaves over *)

Lemma suffix_of_refl (s : string) : suffix_of s s.
Proof. now exists EmptyString. Qed.

Lemma suffix_of_cons (c : ascii) (rest s : string) :
  suffix_of rest s -> suffix_of rest (String c s).
Proof. intros [p ->]. now exists (String c p). Qed.

Lemma suffix_of_trans (a b c : string) :
  suffix_of a b -> suffix_of b c -> suffix_of a c.
Proof. intros [p ->] [q ->]. exists (q ++ p). now rewrite append_assoc. Qed.

Lemma drop_prefix_suffix (ic : bool) (p s rest : string) :
  drop_prefix ic p s = Some rest -> suffix_of rest s.
Proof.
  revert s. induction p as [|a p IH]; intros s H.
  - injection H as ->. apply suffix_of_refl.
  - destruct s as [|b s]; [discriminate|]. simpl in H.
    destruct (char_eqb ic a b); [|discriminate].
    apply suffix_of_cons. now apply IH.
Qed.

Lemma greedy_runs_suffix (cls : ascii -> bool) (s rest : string) :
  In rest (greedy_runs cls s) -> suffix_of rest s.
Proof.
  induction s as [|c s IH]; simpl; [intros []|].
  destruct (cls c); [|intros []].
  intros H. apply in_app_or in H. apply suffix_of_cons.
  destruct H as [H | [<- | []]]; [now apply IH | apply suffix_of_refl].
Qed.

Lemma rmatch_suffix (ic : bool) (r : regex) (s : string)
      (m : captures * string) :
  In m (rmatch ic r s) -> suffix_of (snd m) s.
Proof.
  revert s m. induction r as [lit|cls|cls|r1 IH1 r2 IH2|r1 IH1 r2 IH2|name r IH];
    intros s m H; simpl in H.
  - destruct (drop_prefix ic lit s) as [rest|] eqn:E; [|destruct H].
    destruct H as [<- | []]. now apply drop_prefix_suffix in E.
  - destruct s as [|c rest]; [destruct H|].
    destruct (cls c); [|destruct H].
    destruct H as [<- | []]. apply suffix_of_cons, suffix_of_refl.
  - apply in_map_iff in H as [rest [<- H]]. now apply greedy_runs_suffix in H.
  - apply in_flat_map in H as [m1 [H1 H]].
    apply in_map_iff in H as [m2 [<- H2]]. simpl.
    exact (suffix_of_trans _ _ _ (IH2 _ _ H2) (IH1 _ _ H1)).
  - apply in_app_or in H as [H | H]; [now apply IH1 | now apply IH2].
  - apply in_map_iff in H as [m1 [<- H]]. simpl. now apply IH.
Qed.

(** ** The text that reaches [strptime] *)

Lemma clean_append (a b : string) : clean a -> clean b -> clean (a ++ b).
Proof.
  induction a as [|c a IH]; intros Ha Hb; [exact Hb|].
  rewrite append_cons. destruct Ha as [Hc Ha]. split; [exact Hc | now apply IH].
Qed.

Lemma clean_suffix (rest s : string) : suffix_of rest s -> clean s -> clean rest.
Proof.
  intros [p ->]. induction p as [|c p IH]; intros H; [exact H|].
  rewrite append_cons in H. destruct H as [_ H]. now apply IH.
Qed.

Lemma clean_re_sub (s : string) : clean (re_sub_not_in logtime_char " " s).
Proof.
  induction s as [|c s IH]; simpl; [exact I|].
  destruct (logtime_char c) eqn:E; rewrite append_cons, append_empty.
  - now split.
  - split; [reflexivity | exact IH].
Qed.

Lemma clean_lstrip (s : string) : clean s -> clean (lstrip s).
Proof.
  induction s as [|c s IH]; intros H; simpl; [exact I|].
  destruct (is_space c); [apply IH; now destruct H | exact H].
Qed.

Lemma clean_rstrip (s : string) : clean s -> clean (rstrip s).
Proof.
  induction s as [|c s IH]; intros H; simpl; [exact I|].
  destruct H as [Hc H]. specialize (IH H).
  destruct (rstrip s) as [|c' kept].
  - destruct (is_space c); [exact I | now split].
  - now split.
Qed.

Lemma clean_tzless (logtime : string) : clean (tzless_of logtime).
Proof. unfold tzless_of, strip. apply clean_rstrip, clean_lstrip, clean_re_sub. Qed.

(** No character of the class is a [T], in either case. *)
Lemma logtime_char_not_T (c : ascii) :
  logtime_char c = true -> char_eqb true "T" c = false.
Proof.
  destruct c as [[] [] [] [] [] [] [] []]; vm_compute; congruence.
Qed.

Lemma rmatch_lit_char (ic : bool) (a c : ascii) (s : string) :
  rmatch ic (RLit (String a EmptyString)) (String c s)
  = if char_eqb ic a c then [([], s)] else [].
Proof. simpl. now destruct (char_eqb ic a c). Qed.

Lemma rmatch_seq_unfold (ic : bool) (r1 r2 : regex) (s : string) :
  rmatch ic (RSeq r1 r2) s
  = flat_map (fun m1 : captures * string =>
                map (fun m2 : captures * string =>
                       ((fst m1 ++ fst m2)%list, snd m2))
                    (rmatch ic r2 (snd m1)))
             (rmatch ic r1 s).
Proof. reflexivity. Qed.

Lemma rmatch_T_clean (r : regex) (s : string) :
  clean s -> rmatch true (RSeq (RLit "T") r) s = [].
Proof.
  intros H. rewrite rmatch_seq_unfold. destruct s as [|c s]; [reflexivity|].
  destruct H as [Hc _].
  now rewrite rmatch_lit_char, (logtime_char_not_T c Hc).
Qed.

Lemma rmatch_seq_dead (ic : bool) (r1 r2 : regex) :
  (forall s, clean s -> rmatch ic r2 s = []) ->
  forall s, clean s -> rmatch ic (RSeq r1 r2) s = [].
Proof.
  intros Hdead s Hs. simpl.
  assert (Hall : forall m1, In m1 (rmatch ic r1 s) -> clean (snd m1)).
  { intros m1 H1. eapply clean_suffix; [|exact Hs]. now apply rmatch_suffix in H1. }
  induction (rmatch ic r1 s) as [|m1 l IH]; [reflexivity|].
  simpl. rewrite Hdead by (apply Hall; now left). simpl.
  apply IH. intros m Hm. apply Hall. now right.
Qed.

(** The format of the second attempt asks for a literal [T], and the text
    [convert_logtime] hands to [strptime] has none. *)
Lemma strptime_T_clean (s : string) :
  clean s -> strptime s "%Y-%m-%dT%H:%M:%S" = Raise ValueError.
Proof.
  intros Hs. unfold strptime.
  assert (E : exists a b c d e rest,
             time_re "%Y-%m-%dT%H:%M:%S" false
             = Some (RSeq a (RSeq b (RSeq c (RSeq d (RSeq e
                      (RSeq (RLit "T") rest))))))).
  { do 6 eexists; reflexivity. }
  destruct E as (a & b & c & d & e & rest & ->).
  unfold re_match.
  rewrite (rmatch_seq_dead true a); [reflexivity| |exact Hs].
  do 4 (apply rmatch_seq_dead). apply rmatch_T_clean.
Qed.

Lemma strptime_microsecond (s format : string) (dt : datetime) :
  strptime s format = Ok dt -> microsecond dt = 0.
Proof.
  unfold strptime. destruct (time_re format false) as [r|]; [|discriminate].
  destruct (re_match true r s) as [[found [|c rest]]|]; try discriminate.
  destruct (group_int found "Y" 1900) as [y|]; [|discriminate].
  destruct (group_int found "m" 1) as [m|]; [|discriminate].
  destruct (group_int found "d" 1) as [d|]; [|discriminate].
  destruct (group_int found "H" 0) as [H|]; [|discriminate].
  destruct (group_int found "M" 0) as [M|]; [|discriminate].
  destruct (group_int found "S" 0) as [S|]; [|discriminate].
  simpl. unfold make_datetime.
  destruct (_ && _); [|discriminate]. now intros [= <-].
Qed.

Lemma add_hours_microsecond (dt t : datetime) (h : Z) :
  add_hours dt h = Ok t -> microsecond t = microsecond dt.
Proof.
  unfold add_hours. destruct (_ && _); [|discriminate].
  destruct (ord2ymd _) as [[y m] d]. now intros [= <-].
Qed.

(** [convert_logtime] returns exactly when the first attempt does. *)
Lemma convert_logtime_via_first (logtime : string) (tzone : Z) :
  convert_logtime_via logtime tzone
  = match dt ← strptime (tzless_of logtime) "%Y-%m-%d %H:%M:%S";
          add_hours dt tzone with
    | Ok t => Ok (SpaceSeparated, t)
    | Raise _ => Raise ValueError
    end.
Proof.
  unfold convert_logtime_via.
  destruct (_ ≫= _) as [t|e]; [reflexivity|].
  now rewrite (strptime_T_clean _ (clean_tzless logtime)).
Qed.

(** ** [convert_logtime] *)

(** C3, as the code has it. The first attempt is the space-separated
    format and the T-separated format is tried when it fails. Both sample
    strings reach [strptime] as ["2021-12-09 10:00:00"], since the [T] has
    been replaced by a space, so both are parsed by the first attempt and
    give 2021-12-09 11:00:00 with the default offset. The second attempt
    never returns: a failure of the first one ends in [ValueError]. *)
Theorem convert_logtime_formats :
  let t := mkdatetime 2021 12 9 11 0 0 0 in
  tzless_of "2021-12-09 10:00:00.123456" = "2021-12-09 10:00:00"
  /\ tzless_of "2021-12-09T10:00:00.123456" = "2021-12-09 10:00:00"
  /\ convert_logtime_via "2021-12-09 10:00:00.123456" default_tzone
     = Ok (SpaceSeparated, t)
  /\ convert_logtime_via "2021-12-09T10:00:00.123456" default_tzone
     = Ok (SpaceSeparated, t)
  /\ convert_logtime "2021-12-09 10:00:00.123456" default_tzone
     = convert_logtime "2021-12-09T10:00:00.123456" default_tzone
  /\ (forall logtime tzone,
         convert_logtime logtime tzone
         = match dt ← strptime (tzless_of logtime) "%Y-%m-%d %H:%M:%S";
                 add_hours dt tzone with
           | Ok t' => Ok t'
           | Raise _ => Raise ValueError
           end)
  /\ (forall logtime tzone t',
         convert_logtime_via logtime tzone <> Ok (TSeparated, t')).
Proof.
  intros t. subst t.
  split; [vm_compute; reflexivity|].
  split; [vm_compute; reflexivity|].
  split; [vm_compute; reflexivity|].
  split; [vm_compute; reflexivity|].
  split; [vm_compute; reflexivity|].
  split.
  - intros logtime tzone. unfold convert_logtime.
    rewrite convert_logtime_via_first.
    destruct (strptime _ _) as [dt|e]; [|reflexivity].
    unfold mbind, result_bind. now destruct (add_hours dt tzone).
  - intros logtime tzone t'. rewrite convert_logtime_via_first.
    destruct (strptime _ _) as [dt|e]; [|discriminate].
    unfold mbind, result_bind. now destruct (add_hours dt tzone).
Qed.

(** The T-separated sample does not leave [convert_logtime] through the
    second [return]. *)
Lemma convert_logtime_T_sample_first_attempt :
  ~ (exists t,
        convert_logtime_via "2021-12-09T10:00:00.123456" default_tzone
        = Ok (TSeparated, t)).
Proof. intros [t H]. vm_compute in H. discriminate. Qed.

Lemma re_sub_not_in_blank (s : string) :
  re_sub_not_in logtime_char " " s = string_map blank s.
Proof.
  induction s as [|c s IH]; simpl; [reflexivity|].
  unfold blank. rewrite IH. now destruct (logtime_char c).
Qed.

Lemma split_first_append (sep : ascii) (p rest : string) :
  free_of sep p -> split_first sep (p ++ String sep rest) = p.
Proof.
  induction p as [|c p IH]; intros H.
  - rewrite append_empty. simpl. now rewrite Ascii.eqb_refl.
  - rewrite append_cons. destruct H as [Hc H]. simpl.
    apply Ascii.eqb_neq in Hc. rewrite Hc. now rewrite IH.
Qed.

Lemma split_first_free (sep : ascii) (s : string) :
  free_of sep (split_first sep s).
Proof.
  induction s as [|c s IH]; simpl; [exact I|].
  destruct (Ascii.eqb_spec c sep); [exact I | now split].
Qed.

(** C10. When [convert_logtime] accepts a string, the instant has no
    microseconds; it is the first format's reading of the text before the
    first ['.'] in which every character other than a digit, ['-'], [':']
    and white space has become a space (stripped), moved by the offset; so
    whatever follows the first ['.'] does not count, and neither does which
    character outside the class stood at a place. *)
Theorem convert_logtime_whole_seconds (logtime : string) (tzone : Z)
        (t : datetime) :
  convert_logtime logtime tzone = Ok t ->
  microsecond t = 0
  /\ (exists dt,
         strptime (strip (string_map blank (split_first "." logtime)))
                  "%Y-%m-%d %H:%M:%S" = Ok dt
         /\ add_hours dt tzone = Ok t)
  /\ (forall fraction,
         convert_logtime (split_first "." logtime ++ "." ++ fraction) tzone
         = Ok t)
  /\ (forall other,
         string_map blank (split_first "." other)
         = string_map blank (split_first "." logtime) ->
         convert_logtime other tzone = Ok t).
Proof.
  intros H.
  assert (Hdep : forall other,
             string_map blank (split_first "." other)
             = string_map blank (split_first "." logtime) ->
             convert_logtime other tzone = Ok t).
  { intros other E. rewrite <- H. unfold convert_logtime, convert_logtime_via.
    unfold tzless_of. now rewrite !re_sub_not_in_blank, E. }
  unfold convert_logtime in H. rewrite convert_logtime_via_first in H.
  unfold tzless_of in H. rewrite re_sub_not_in_blank in H.
  destruct (strptime _ _) as [dt|e] eqn:Edt; [|discriminate].
  simpl in H. destruct (add_hours dt tzone) as [t'|e] eqn:Et; [|discriminate].
  injection H as <-.
  split; [|split; [|split]].
  - rewrite (add_hours_microsecond _ _ _ Et).
    exact (strptime_microsecond _ _ _ Edt).
  - now exists dt.
  - intros fraction. apply Hdep.
    change ("." ++ fraction) with (String "." fraction).
    now rewrite split_first_append by apply split_first_free.
  - exact Hdep.
Qed.

Lemma convert_logtime_whole_seconds_witness :
  convert_logtime "2021-12-09T10:00:00Z" 1
  = Ok (mkdatetime 2021 12 9 11 0 0 0)
  /\ microsecond (mkdatetime 2021 12 9 11 0 0 0) = 0
  /\ convert_logtime "2021-12-09_10:00:00 .987654" 1
     = Ok (mkdatetime 2021 12 9 11 0 0 0).
Proof.
  assert (H : convert_logtime "2021-12-09T10:00:00Z" 1
              = Ok (mkdatetime 2021 12 9 11 0 0 0))
    by (vm_compute; reflexivity).
  split; [exact H|].
  pose proof (convert_logtime_whole_seconds "2021-12-09T10:00:00Z" 1 _ H)
    as (Hus & _ & _ & Hother).
  split; [exact Hus|].
  apply Hother. vm_compute. reflexivity.
Defined.

(** ** Ingestion *)

Lemma bind_ok {A B : Type} (a : A) (k : A -> result B) : (Ok a ≫= k) = k a.
Proof. reflexivity. Qed.

Lemma bind_raise {A B : Type} (e : exc) (k : A -> result B) :
  (Raise e ≫= k) = Raise e.
Proof. reflexivity. Qed.

Lemma item0_cons {A : Type} (a : A) (l : list A) : item0 (a :: l) = Ok a.
Proof. reflexivity. Qed.

Lemma item0_nil {A : Type} : item0 (@nil A) = Raise IndexError.
Proof. reflexivity. Qed.

(** Rewrite with the equation given and reduce what it decides. *)
Ltac run_with H :=
  rewrite H; rewrite ?item0_cons, ?item0_nil, ?bind_ok, ?bind_raise.

Lemma dict_get_none {V : Type} (d : list (Z * V)) (k : Z) :
  ~ In k (keys d) -> dict_get d k = None.
Proof.
  intros Hk. destruct (dict_get d k) as [v|] eqn:E; [|reflexivity].
  exfalso. apply Hk. apply dict_get_keys. now exists v.
Qed.

Lemma parse_records_skip `{Collaborators} (data : string)
      (rest : list (result string)) (store : Datastore) :
  prefilter data = false ->
  parse_records (Ok data :: rest) store = parse_records rest store.
Proof. intros Hp. simpl. now rewrite Hp. Qed.

Lemma parse_records_step `{Collaborators} (data : string)
      (rest : list (result string)) (store : Datastore) :
  prefilter data = true ->
  parse_records (Ok data :: rest) store
  = (store' ← process_record store data; parse_records rest store').
Proof. intros Hp. simpl. now rewrite Hp. Qed.

Lemma process_record_event `{Collaborators} (data : string)
      (store : Datastore) (event : Event) :
  get_event_from_xml data = Ok event ->
  process_record store data
  = match dict_get supported_events (event_id event) with
    | Some extractor =>
        extract extractor (add_timestamp store (timestamp event)) event
    | None => Ok (add_timestamp store (timestamp event))
    end.
Proof. intros He. unfold process_record. now run_with He. Qed.

Lemma tables_add_timestamp (store : Datastore) (t : datetime) :
  tables (add_timestamp store t) = tables store.
Proof. reflexivity. Qed.

(** C5. A record that passes the prefilter and whose event id is not a key
    of the dispatch table calls no extractor and raises nothing: the store
    it leaves is the one before with the instant of the record added to the
    window, the entities and relationships as they were, and the loop goes
    on with the next record. *)
Theorem unmatched_id_is_noop `{Collaborators} (data : string)
        (rest : list (result string)) (store : Datastore) (event : Event) :
  prefilter data = true ->
  get_event_from_xml data = Ok event ->
  ~ In (event_id event) (keys supported_events) ->
  process_record store data = Ok (add_timestamp store (timestamp event))
  /\ tables (add_timestamp store (timestamp event)) = tables store
  /\ parse_records (Ok data :: rest) store
     = parse_records rest (add_timestamp store (timestamp event)).
Proof.
  intros Hp He Hk.
  assert (Hproc : process_record store data
                  = Ok (add_timestamp store (timestamp event))).
  { rewrite (process_record_event _ _ _ He). now rewrite (dict_get_none _ _ Hk). }
  split; [exact Hproc|]. split; [reflexivity|].
  rewrite (parse_records_step _ _ _ Hp). now run_with Hproc.
Qed.

(** ** The failures of a record *)

Lemma get_event_not_well_formed `{Collaborators} (data : string) (e : exc) :
  to_lxml data = Raise e -> get_event_from_xml data = Raise e.
Proof. intros Hx. unfold get_event_from_xml. now run_with Hx. Qed.

Lemma get_event_no_event_id `{Collaborators} (data : string) (x : Element) :
  to_lxml data = Ok x -> xpath x "/Event/System/EventID" = [] ->
  get_event_from_xml data = Raise IndexError.
Proof.
  intros Hx Hid. unfold get_event_from_xml. run_with Hx. now run_with Hid.
Qed.

Lemma get_event_no_time_created `{Collaborators} (data : string) (x idn : Element)
      (ids : list Element) (i : Z) :
  to_lxml data = Ok x -> xpath x "/Event/System/EventID" = idn :: ids ->
  int_opt (text idn) = Ok i ->
  xpath x "/Event/System/TimeCreated" = [] ->
  get_event_from_xml data = Raise IndexError.
Proof.
  intros Hx Hid Hi Ht. unfold get_event_from_xml.
  run_with Hx. run_with Hid. run_with Hi. now run_with Ht.
Qed.

Lemma convert_logtime_neither (logtime : string) (tzone : Z) (e1 e2 : exc) :
  strptime (tzless_of logtime) "%Y-%m-%d %H:%M:%S" = Raise e1 ->
  strptime (tzless_of logtime) "%Y-%m-%dT%H:%M:%S" = Raise e2 ->
  convert_logtime logtime tzone = Raise e2.
Proof.
  intros H1 H2. unfold convert_logtime, convert_logtime_via.
  now rewrite H1, H2.
Qed.

Lemma get_event_bad_timestamp `{Collaborators} (data : string)
      (x idn tn : Element) (ids tns : list Element) (i : Z) (logtime : string)
      (e1 e2 : exc) :
  to_lxml data = Ok x -> xpath x "/Event/System/EventID" = idn :: ids ->
  int_opt (text idn) = Ok i ->
  xpath x "/Event/System/TimeCreated" = tn :: tns ->
  get tn "SystemTime" = Some logtime ->
  strptime (tzless_of logtime) "%Y-%m-%d %H:%M:%S" = Raise e1 ->
  strptime (tzless_of logtime) "%Y-%m-%dT%H:%M:%S" = Raise e2 ->
  get_event_from_xml data = Raise e2.
Proof.
  intros Hx Hid Hi Ht Hg H1 H2. unfold get_event_from_xml.
  run_with Hx. run_with Hid. run_with Hi. run_with Ht.
  rewrite Hg. unfold convert_logtime_opt.
  now run_with (convert_logtime_neither _ default_tzone _ _ H1 H2).
Qed.

Lemma get_event_no_event_data `{Collaborators} (data : string)
      (x idn tn : Element) (ids tns : list Element) (i : Z) (t : datetime) :
  to_lxml data = Ok x -> xpath x "/Event/System/EventID" = idn :: ids ->
  int_opt (text idn) = Ok i ->
  xpath x "/Event/System/TimeCreated" = tn :: tns ->
  convert_logtime_opt (get tn "SystemTime") = Ok t ->
  xpath x "/Event/EventData/Data" = [] ->
  get_event_from_xml data = Ok (mkEvent i t []).
Proof.
  intros Hx Hid Hi Ht Hc Hd. unfold get_event_from_xml.
  run_with Hx. run_with Hid. run_with Hi. run_with Ht.
  run_with Hc. now rewrite Hd.
Qed.

(** C1, as the code has it. The loop has no handler. A record the
    prefilter rejects is skipped, whatever its text. A record that passes
    the prefilter and cannot be normalised, because it is not well-formed,
    has no [System/EventID] or no [System/TimeCreated], or has a timestamp
    that matches neither format, raises out of the loop: the records after
    it are not read and no store is returned, as for an error of the
    decoder. A record without [EventData/Data] is not a failure: its list
    of fields is empty. *)
Theorem record_failure_aborts `{Collaborators} (data : string)
        (rest : list (result string)) (store : Datastore) (e : exc) :
  prefilter data = true ->
  get_event_from_xml data = Raise e ->
  parse_records (Ok data :: rest) store = Raise e
  /\ (forall other, prefilter other = false ->
        parse_records (Ok other :: rest) store = parse_records rest store)
  /\ (forall e', parse_records (Raise e' :: rest) store = Raise e')
  /\ (forall other e', to_lxml other = Raise e' ->
        get_event_from_xml other = Raise e')
  /\ (forall other x, to_lxml other = Ok x ->
        xpath x "/Event/System/EventID" = [] ->
        get_event_from_xml other = Raise IndexError)
  /\ (forall other x idn ids i, to_lxml other = Ok x ->
        xpath x "/Event/System/EventID" = idn :: ids ->
        int_opt (text idn) = Ok i ->
        xpath x "/Event/System/TimeCreated" = [] ->
        get_event_from_xml other = Raise IndexError)
  /\ (forall other x idn ids i tn tns logtime e1 e2, to_lxml other = Ok x ->
        xpath x "/Event/System/EventID" = idn :: ids ->
        int_opt (text idn) = Ok i ->
        xpath x "/Event/System/TimeCreated" = tn :: tns ->
        get tn "SystemTime" = Some logtime ->
        strptime (tzless_of logtime) "%Y-%m-%d %H:%M:%S" = Raise e1 ->
        strptime (tzless_of logtime) "%Y-%m-%dT%H:%M:%S" = Raise e2 ->
        get_event_from_xml other = Raise e2)
  /\ (forall other x idn ids i tn tns t, to_lxml other = Ok x ->
        xpath x "/Event/System/EventID" = idn :: ids ->
        int_opt (text idn) = Ok i ->
        xpath x "/Event/System/TimeCreated" = tn :: tns ->
        convert_logtime_opt (get tn "SystemTime") = Ok t ->
        xpath x "/Event/EventData/Data" = [] ->
        get_event_from_xml other = Ok (mkEvent i t [])).
Proof.
  intros Hp He.
  split.
  { rewrite (parse_records_step _ _ _ Hp). unfold process_record.
    now run_with He. }
  split; [intros other Ho; now apply parse_records_skip|].
  split; [reflexivity|].
  split; [intros other e'; apply get_event_not_well_formed|].
  split; [intros other x; apply get_event_no_event_id|].
  split; [intros other x idn ids i; apply get_event_no_time_created|].
  split; [intros other x idn ids i tn tns logtime e1 e2;
          apply get_event_bad_timestamp|].
  intros other x idn ids i tn tns t. apply get_event_no_event_data.
Qed.

Lemma unmatched_id_is_noop_witness :
  prefilter quoting_event = true
  /\ @get_event_from_xml (sample []) quoting_event
     = Ok (mkEvent 9999 (mkdatetime 2021 12 9 9 0 0 0) [])
  /\ ~ In 9999 (keys supported_events)
  /\ @process_record (sample []) new_store quoting_event
     = Ok (add_timestamp new_store (mkdatetime 2021 12 9 9 0 0 0)).
Proof.
  assert (Hp : prefilter quoting_event = true) by (vm_compute; reflexivity).
  assert (He : @get_event_from_xml (sample []) quoting_event
               = Ok (mkEvent 9999 (mkdatetime 2021 12 9 9 0 0 0) []))
    by (vm_compute; reflexivity).
  assert (Hk : ~ In 9999 (keys supported_events))
    by (cbn; intros H; repeat destruct H as [H | H]; try discriminate H; exact H).
  split; [exact Hp|]. split; [exact He|]. split; [exact Hk|].
  exact (proj1 (@unmatched_id_is_noop (sample []) quoting_event [] new_store
                  _ Hp He Hk)).
Defined.

Lemma record_failure_aborts_witness :
  prefilter truncated = true
  /\ @get_event_from_xml (sample []) truncated = Raise XMLSyntaxError
  /\ @parse_records (sample []) [Ok truncated; Ok logon_alice] new_store
     = Raise XMLSyntaxError.
Proof.
  assert (Hp : prefilter truncated = true) by (vm_compute; reflexivity).
  assert (He : @get_event_from_xml (sample []) truncated = Raise XMLSyntaxError)
    by (vm_compute; reflexivity).
  split; [exact Hp|]. split; [exact He|].
  exact (proj1 (@record_failure_aborts (sample []) truncated [Ok logon_alice]
                  new_store XMLSyntaxError Hp He)).
Defined.

(** A record that is not well-formed, or lacks [System/EventID] or
    [System/TimeCreated], or has a timestamp in neither format, is not
    skipped: with a logon after it, ingestion returns no store, while the
    logon alone is ingested. Only the record without [EventData] is let
    through. *)
Lemma malformed_record_stops_ingestion :
  ingest [Ok truncated; Ok logon_alice] = Raise XMLSyntaxError
  /\ ingest [Ok no_event_id; Ok logon_alice] = Raise IndexError
  /\ ingest [Ok no_time_created; Ok logon_alice] = Raise IndexError
  /\ ingest [Ok bad_time; Ok logon_alice] = Raise ValueError
  /\ is_ok (ingest [Ok logon_alice]) = true
  /\ is_ok (ingest [Ok no_event_data; Ok logon_alice]) = true
  /\ ingest [Ok truncated; Ok logon_alice] <> ingest [Ok logon_alice].
Proof.
  repeat (split; [vm_compute; reflexivity|]). vm_compute. discriminate.
Qed.

(** ** The observation window *)

Lemma window_add_timestamp (store : Datastore) (t : datetime) :
  window (add_timestamp store t)
  = (Some (match start_time store with Some s => earlier s t | None => t end),
     Some (match end_time store with Some e => later e t | None => t end)).
Proof. reflexivity. Qed.

(** C2, as the code has it. Take two records that both pass the prefilter
    and are normalised, the first with an id of the dispatch table and the
    second with another id, and extractors that leave the window alone.
    Ingesting them, in either order, runs the extractor of the first one
    only, on a store to which the second one adds nothing but its instant,
    and the window is made of both instants. A record the prefilter
    rejects, as it does a record of another id unless its text quotes a
    supported one, leaves the window and the tables as they are. *)
Theorem window_of_accepted_records `{Collaborators} (r1 r2 : string)
        (e1 e2 : Event) (h : Extractor) :
  (forall h' s ev s', extract h' s ev = Ok s' -> window s' = window s) ->
  prefilter r1 = true -> prefilter r2 = true ->
  get_event_from_xml r1 = Ok e1 -> get_event_from_xml r2 = Ok e2 ->
  dict_get supported_events (event_id e1) = Some h ->
  dict_get supported_events (event_id e2) = None ->
  let t1 := timestamp e1 in
  let t2 := timestamp e2 in
  parse_records [Ok r1; Ok r2] new_store
  = (s1 ← extract h (add_timestamp new_store t1) e1; Ok (add_timestamp s1 t2))
  /\ parse_records [Ok r2; Ok r1] new_store
     = extract h (add_timestamp (add_timestamp new_store t2) t1) e1
  /\ tables (add_timestamp new_store t2) = tables new_store
  /\ (forall s, parse_records [Ok r1; Ok r2] new_store = Ok s ->
        window s = (Some (earlier t1 t2), Some (later t1 t2)))
  /\ (forall s, parse_records [Ok r2; Ok r1] new_store = Ok s ->
        window s = (Some (earlier t2 t1), Some (later t2 t1)))
  /\ (forall r, prefilter r = false ->
        parse_records [Ok r1; Ok r] new_store
        = extract h (add_timestamp new_store t1) e1
        /\ parse_records [Ok r; Ok r1] new_store
           = extract h (add_timestamp new_store t1) e1).
Proof.
  intros Hwin Hp1 Hp2 He1 He2 Hh Hn t1 t2.
  assert (P1 : forall store, process_record store r1
                             = extract h (add_timestamp store t1) e1).
  { intros store. rewrite (process_record_event _ _ _ He1). now rewrite Hh. }
  assert (P2 : forall store, process_record store r2
                             = Ok (add_timestamp store t2)).
  { intros store. rewrite (process_record_event _ _ _ He2). now rewrite Hn. }
  assert (E12 : parse_records [Ok r1; Ok r2] new_store
                = (s1 ← extract h (add_timestamp new_store t1) e1;
                   Ok (add_timestamp s1 t2))).
  { rewrite (parse_records_step _ _ _ Hp1), P1.
    destruct (extract h (add_timestamp new_store t1) e1) as [s1|e];
      rewrite ?bind_ok, ?bind_raise; [|reflexivity].
    rewrite (parse_records_step _ _ _ Hp2), P2. reflexivity. }
  assert (E21 : parse_records [Ok r2; Ok r1] new_store
                = extract h (add_timestamp (add_timestamp new_store t2) t1) e1).
  { rewrite (parse_records_step _ _ _ Hp2), P2, bind_ok.
    rewrite (parse_records_step _ _ _ Hp1), P1.
    now destruct (extract h (add_timestamp (add_timestamp new_store t2) t1) e1). }
  split; [exact E12|]. split; [exact E21|]. split; [reflexivity|].
  split; [|split].
  - intros s Hs. rewrite E12 in Hs.
    destruct (extract h (add_timestamp new_store t1) e1) as [s1|e] eqn:Ex;
      rewrite ?bind_ok, ?bind_raise in Hs; [|discriminate].
    injection Hs as <-. apply Hwin in Ex.
    rewrite window_add_timestamp in *. unfold window in Ex.
    injection Ex as -> ->. reflexivity.
  - intros s Hs. rewrite E21 in Hs. apply Hwin in Hs. rewrite Hs. reflexivity.
  - intros r Hr. split.
    + rewrite (parse_records_step _ _ _ Hp1), P1.
      destruct (extract h (add_timestamp new_store t1) e1) as [s1|e];
        rewrite ?bind_ok, ?bind_raise; [|reflexivity].
      now rewrite (parse_records_skip _ _ _ Hr).
    + rewrite (parse_records_skip _ _ _ Hr).
      rewrite (parse_records_step _ _ _ Hp1), P1.
      now destruct (extract h (add_timestamp new_store t1) e1).
Qed.

Lemma sample_extract_window (h : Extractor) (s : Datastore) (ev : Event)
      (s' : Datastore) :
  sample_extract h s ev = Ok s' -> window s' = window s.
Proof. unfold sample_extract. now intros [= <-]. Qed.

Lemma window_of_accepted_records_witness :
  prefilter logon_alice = true /\ prefilter quoting_event = true
  /\ ingest_window [Ok logon_alice; Ok quoting_event]
     = Ok (Some (mkdatetime 2021 12 9 9 0 0 0),
           Some (mkdatetime 2021 12 9 11 0 0 0))
  /\ (forall s,
         @parse_records (sample []) [Ok logon_alice; Ok quoting_event] new_store
         = Ok s ->
         window s = (Some (earlier (mkdatetime 2021 12 9 11 0 0 0)
                                   (mkdatetime 2021 12 9 9 0 0 0)),
                     Some (later (mkdatetime 2021 12 9 11 0 0 0)
                                 (mkdatetime 2021 12 9 9 0 0 0)))).
Proof.
  assert (Hp1 : prefilter logon_alice = true) by (vm_compute; reflexivity).
  assert (Hp2 : prefilter quoting_event = true) by (vm_compute; reflexivity).
  split; [exact Hp1|]. split; [exact Hp2|].
  split; [vm_compute; reflexivity|].
  refine (proj1 (proj2 (proj2 (proj2
    (@window_of_accepted_records (sample []) logon_alice quoting_event
       (mkEvent 4624 (mkdatetime 2021 12 9 11 0 0 0)
          [mkElement "Data" [("Name", "TargetUserName")] (Some "alice") [];
           mkElement "Data" [("Name", "WorkstationName")] (Some "SRV01") []])
       (mkEvent 9999 (mkdatetime 2021 12 9 9 0 0 0) [])
       parse_logon_successfull sample_extract_window Hp1 Hp2 _ _ _ _))))).
  - vm_compute. reflexivity.
  - vm_compute. reflexivity.
  - reflexivity.
  - reflexivity.
Defined.

(** A logon at 10:00 and a well-formed process creation (4688) at 09:00,
    both moved by the offset: the prefilter rejects the second record and
    the window is that of the logon alone, 11:00 to 11:00, although the
    process creation is an hour earlier. *)
Lemma unsupported_record_outside_window :
  prefilter process_creation = false
  /\ @get_event_from_xml (sample []) process_creation
     = Ok (mkEvent 4688 (mkdatetime 2021 12 9 10 0 0 0)
             [mkElement "Data" [("Name", "TargetUserName")] (Some "bob") [];
              mkElement "Data" [("Name", "WorkstationName")] (Some "SRV02") []])
  /\ dict_get supported_events 4688 = None
  /\ ingest_window [Ok logon_alice; Ok process_creation]
     = Ok (Some (mkdatetime 2021 12 9 11 0 0 0),
           Some (mkdatetime 2021 12 9 11 0 0 0))
  /\ ingest_window [Ok logon_alice; Ok process_creation]
     <> Ok (Some (earlier (mkdatetime 2021 12 9 11 0 0 0)
                          (mkdatetime 2021 12 9 10 0 0 0)),
            Some (later (mkdatetime 2021 12 9 11 0 0 0)
                        (mkdatetime 2021 12 9 10 0 0 0))).
Proof.
  repeat (split; [vm_compute; reflexivity|]).
  vm_compute. discriminate.
Qed.

(** ** Batches *)

Lemma chunks_concat {A : Type} (l : list A) (k m : nat) :
  concat (map (fun i => firstn k (skipn (i * k) l)) (seq 0 m))
  = firstn (m * k) l.
Proof.
  induction m as [|m IH].
  - reflexivity.
  - rewrite seq_S, map_app, concat_app, IH. simpl.
    rewrite app_nil_r, take_take_drop. f_equal. lia.
Qed.

(** The number of batches: the length divided by the size, rounded up. *)
Lemma chunk_count (n size : Z) :
  0 <= n -> 0 < size ->
  let q := (n + size - 1) / size in
  0 <= q /\ n <= q * size /\ (q - 1) * size < n.
Proof.
  intros Hn Hs q.
  pose proof (Z.div_mod (n + size - 1) size ltac:(lia)) as Hdm.
  pose proof (Z.mod_pos_bound (n + size - 1) size Hs) as Hr.
  fold q in Hdm. split; [apply Z.div_pos; lia | nia].
Qed.

Lemma chunker_positive {A : Type} (l : list A) (size : Z) :
  0 < size ->
  chunker l size
  = Ok (map (fun i => firstn (Z.to_nat size) (skipn (i * Z.to_nat size) l))
            (seq 0 (Z.to_nat ((Z.of_nat (length l) + size - 1) / size)))).
Proof.
  intros Hs. unfold chunker, py_range.
  destruct (size =? 0) eqn:E0; [apply Z.eqb_eq in E0; lia|].
  destruct (size <? 0) eqn:E1; [apply Z.ltb_lt in E1; lia|].
  rewrite bind_ok, map_map. f_equal. apply map_ext. intros i. unfold slice.
  replace (Z.of_nat i * size + size - Z.of_nat i * size) with size by lia.
  now rewrite Z2Nat.inj_mul, Nat2Z.id by lia.
Qed.

Lemma chunker_partition_of {A : Type} (l : list A) (size : Z) :
  0 < size ->
  exists chunks,
    chunker l size = Ok chunks
    /\ concat chunks = l
    /\ Forall (fun c => c <> [] /\ Z.of_nat (length c) <= size) chunks.
Proof.
  intros Hs. rewrite (chunker_positive l size Hs).
  set (k := Z.to_nat size). set (n := Z.of_nat (length l)).
  destruct (chunk_count n size ltac:(lia) Hs) as (Hq & Hup & Hlow).
  set (q := (n + size - 1) / size) in *.
  eexists. split; [reflexivity|]. split.
  - rewrite chunks_concat. apply take_ge. subst k n. nia.
  - apply Forall_forall. intros c Hc.
    apply list_elem_of_In, in_map_iff in Hc as (i & <- & Hi).
    apply in_seq in Hi.
    assert (Hik : (i * k < length l)%nat) by (subst k n; nia).
    split.
    + intros Hnil. apply (f_equal (@length A)) in Hnil.
      rewrite length_take, length_drop in Hnil. simpl in Hnil. subst k. lia.
    + pose proof (firstn_le_length k (skipn (i * k) l)). subst k. lia.
Qed.

Lemma event_batches_chunks (fixed : list run) (chunks : list (list fields))
      (folder : string) :
  event_batches fixed = [] ->
  event_batches (fixed ++ map (fun chunk => mkRun AddEvents chunk folder) chunks)
  = chunks.
Proof.
  unfold event_batches. intros Hf. rewrite List.filter_app, map_app, Hf. simpl.
  induction chunks as [|c chunks IH]; simpl; [reflexivity | now rewrite IH].
Qed.

Lemma add_evtx_store_batches `{Collaborators} (store : Datastore)
      (folder : string) (events : list fields) :
  exported_events store = Ok events ->
  exists calls,
    add_evtx_store store folder = Ok calls
    /\ concat (event_batches calls) = events
    /\ Forall (fun b => b <> [] /\ Z.of_nat (length b) <= 10000)
              (event_batches calls).
Proof.
  intros He. unfold add_evtx_store. rewrite He, bind_ok.
  destruct (chunker_partition_of events CHUNK_SIZE ltac:(reflexivity))
    as (chunks & Hc & Hcat & Hall).
  rewrite Hc, bind_ok. eexists. split; [reflexivity|].
  rewrite event_batches_chunks by reflexivity. now split.
Qed.

(** C7. For a size above zero, [chunker] cuts a list into consecutive
    batches, none empty and none longer than the size, whose concatenation
    is the list; and for every list [events] of rows that [add_evtx_store]
    has built from the relationships of a store, its calls for the events
    carry [events] in such batches of at most 10,000 rows, in their
    order. *)
Theorem chunker_partition `{Collaborators} {A : Type} (l : list A) (size : Z)
        (store : Datastore) (folder : string) :
  0 < size ->
  (exists chunks,
      chunker l size = Ok chunks
      /\ concat chunks = l
      /\ Forall (fun c => c <> [] /\ Z.of_nat (length c) <= size) chunks)
  /\ (forall events,
         exported_events store = Ok events ->
         exists calls,
           add_evtx_store store folder = Ok calls
           /\ concat (event_batches calls) = events
           /\ Forall (fun b => b <> [] /\ Z.of_nat (length b) <= 10000)
                     (event_batches calls)).
Proof.
  intros Hs. split.
  - now apply chunker_partition_of.
  - intros events. apply add_evtx_store_batches.
Qed.

Lemma chunker_partition_witness :
  0 < 2
  /\ chunker [1; 2; 3; 4; 5] 2 = Ok [[1; 2]; [3; 4]; [5]]
  /\ @exported_events (sample []) store_alice = Ok [logons_alice_row]
  /\ (exists chunks,
         chunker [1; 2; 3; 4; 5] 2 = Ok chunks
         /\ concat chunks = [1; 2; 3; 4; 5]
         /\ Forall (fun c => c <> [] /\ Z.of_nat (length c) <= 2) chunks)
  /\ (exists calls,
         @add_evtx_store (sample []) store_alice "folder" = Ok calls
         /\ concat (event_batches calls) = [logons_alice_row]
         /\ Forall (fun b => b <> [] /\ Z.of_nat (length b) <= 10000)
                   (event_batches calls)).
Proof.
  assert (He : @exported_events (sample []) store_alice
               = Ok [logons_alice_row]) by (vm_compute; reflexivity).
  destruct (@chunker_partition (sample []) Z [1; 2; 3; 4; 5] 2 store_alice
              "folder" ltac:(lia)) as [Hc Hs].
  split; [lia|]. split; [reflexivity|]. split; [exact He|].
  split; [exact Hc | exact (Hs _ He)].
Defined.

(** ** Rows and their fields *)

Lemma dict_lookup_set_eq (key : string) (v : value) (d : fields) :
  dict_lookup key (dict_set key v d) = Some v.
Proof.
  unfold dict_lookup. induction d as [|[k old] d IH]; simpl.
  - now rewrite String.eqb_refl.
  - destruct (String.eqb k key) eqn:E; simpl; rewrite E; [reflexivity | exact IH].
Qed.

Lemma dict_lookup_set_ne (key key' : string) (v : value) (d : fields) :
  key <> key' -> dict_lookup key' (dict_set key v d) = dict_lookup key' d.
Proof.
  intros Hne. unfold dict_lookup. induction d as [|[k old] d IH]; simpl.
  - apply String.eqb_neq in Hne. now rewrite Hne.
  - destruct (String.eqb k key) eqn:E; simpl.
    + apply String.eqb_eq in E. subst k.
      apply String.eqb_neq in Hne. now rewrite Hne.
    + destruct (String.eqb k key'); [reflexivity | exact IH].
Qed.

Lemma dict_lookup_app (key : string) (d1 d2 : fields) :
  dict_lookup key (d1 ++ d2)%list
  = match dict_lookup key d1 with
    | Some v => Some v
    | None => dict_lookup key d2
    end.
Proof.
  unfold dict_lookup. induction d1 as [|[k v] d1 IH]; simpl.
  - now destruct (find _ d2).
  - destruct (String.eqb k key); [reflexivity | exact IH].
Qed.

Lemma dict_lookup_exclude_in (key : string) (names : list string) (d : fields) :
  In key names -> dict_lookup key (exclude names d) = None.
Proof.
  intros Hin. unfold dict_lookup, exclude.
  induction d as [|[k v] d IH]; simpl; [reflexivity|].
  destruct (existsb (String.eqb k) names) eqn:Ex; simpl; [exact IH|].
  destruct (String.eqb k key) eqn:E; [|exact IH].
  apply String.eqb_eq in E. subst k. exfalso.
  assert (existsb (String.eqb key) names = true); [|congruence].
  apply existsb_exists. exists key. split; [exact Hin | apply String.eqb_refl].
Qed.

Lemma dict_lookup_exclude_notin (key : string) (names : list string)
      (d : fields) :
  ~ In key names -> dict_lookup key (exclude names d) = dict_lookup key d.
Proof.
  intros Hnot. unfold dict_lookup, exclude.
  induction d as [|[k v] d IH]; simpl; [reflexivity|].
  destruct (existsb (String.eqb k) names) eqn:Ex; simpl.
  - destruct (String.eqb k key) eqn:E; [|exact IH].
    apply String.eqb_eq in E. subst k. exfalso. apply Hnot.
    apply existsb_exists in Ex as (x & Hx & Exk).
    apply String.eqb_eq in Exk. now subst x.
  - destruct (String.eqb k key); [reflexivity | exact IH].
Qed.

Lemma result_map_Forall2 {A B : Type} (f : A -> result B) (l : list A)
      (ys : list B) :
  result_map f l = Ok ys -> Forall2 (fun x y => f x = Ok y) l ys.
Proof.
  revert ys. induction l as [|x l IH]; intros ys Hm; cbn [result_map] in Hm.
  - injection Hm as <-. constructor.
  - destruct (f x) as [y|] eqn:E; rewrite ?bind_ok, ?bind_raise in Hm;
      [|discriminate].
    destruct (result_map f l) as [ys'|]; rewrite ?bind_ok, ?bind_raise in Hm;
      [|discriminate].
    injection Hm as <-. constructor; auto.
Qed.

Lemma kept_tip (e : Relationship) :
  dict_lookup "tip" (exclude ["timestamps"; "source_type"; "target_type"]
                             (relationship_dict e))
  = dict_lookup "tip" (relationship_dict e).
Proof.
  apply dict_lookup_exclude_notin.
  simpl. intros [H0 | [H0 | [H0 | []]]]; discriminate H0.
Qed.

(** The row of a relationship: the kept fields, then the timestamps and the
    tip. *)
Lemma export_event_unfold `{Collaborators} (e : Relationship) :
  export_event e
  = (seconds ← result_map epoch_seconds (timestamps e);
     match dict_lookup "tip" (relationship_dict e) with
     | Some _ => Raise TypeError
     | None =>
         Ok (dict_set "timestamps" (VInts seconds)
               (exclude ["timestamps"; "source_type"; "target_type"]
                        (relationship_dict e)
                ++ [ ("timestamps", VInts seconds);
                     ("tip", VStr (tip_of e)) ])%list)
     end).
Proof.
  unfold export_event. cbv zeta. rewrite kept_tip.
  destruct (result_map epoch_seconds (timestamps e)) as [seconds|];
    [|reflexivity].
  rewrite !bind_ok.
  destruct (dict_lookup "tip" (relationship_dict e)); [reflexivity|].
  f_equal. unfold RelationshipInDB, value_list.
  rewrite dict_lookup_app, dict_lookup_exclude_in by (simpl; tauto).
  reflexivity.
Qed.

Lemma export_event_row `{Collaborators} (e : Relationship) (row : fields) :
  export_event e = Ok row ->
  exists seconds,
    result_map epoch_seconds (timestamps e) = Ok seconds
    /\ dict_lookup "tip" (relationship_dict e) = None
    /\ row
       = dict_set "timestamps" (VInts seconds)
           (exclude ["timestamps"; "source_type"; "target_type"]
                    (relationship_dict e)
            ++ [ ("timestamps", VInts seconds);
                 ("tip", VStr (tip_of e)) ])%list.
Proof.
  rewrite export_event_unfold.
  destruct (result_map epoch_seconds (timestamps e)) as [seconds|];
    rewrite ?bind_ok, ?bind_raise; [|discriminate].
  destruct (dict_lookup "tip" (relationship_dict e)); [discriminate|].
  intros Heq. exists seconds. split; [reflexivity|]. split; [reflexivity|].
  congruence.
Qed.


Lemma export_event_tip `{Collaborators} (e : Relationship) (row : fields) :
  export_event e = Ok row ->
  dict_lookup "tip" row = Some (VStr (tip_of e)).
Proof.
  intros Hrow.
  destruct (export_event_row e row Hrow) as (seconds & _ & Hno & ->).
  rewrite dict_lookup_set_ne by discriminate.
  now rewrite dict_lookup_app, kept_tip, Hno.
Qed.

Lemma export_event_count `{Collaborators} (e : Relationship) (row : fields) :
  export_event e = Ok row ->
  dict_lookup "count" row = Some (VInt (count e)).
Proof.
  intros Hrow.
  destruct (export_event_row e row Hrow) as (seconds & _ & _ & ->).
  rewrite dict_lookup_set_ne by discriminate.
  rewrite dict_lookup_app, dict_lookup_exclude_notin.
  - reflexivity.
  - simpl. intros [H0 | [H0 | [H0 | []]]]; discriminate H0.
Qed.

Lemma merge_row_tip (rel row : fields) :
  dict_lookup "tip" (merge_row (Some rel) row) = dict_lookup "tip" rel.
Proof.
  unfold merge_row.
  destruct (dict_lookup "count" rel) as [[| | a | | | | |]|]; try reflexivity.
  destruct (dict_lookup "count" row) as [[| | b | | | | |]|]; try reflexivity.
  now apply dict_lookup_set_ne.
Qed.

Lemma merge_row_count (rel row : fields) (a : Z) :
  dict_lookup "count" rel = Some (VInt a) ->
  exists b, dict_lookup "count" (merge_row (Some rel) row) = Some (VInt b).
Proof.
  intros Ha. unfold merge_row. rewrite Ha.
  destruct (dict_lookup "count" row) as [[| | b | | | | |]|];
    try (now exists a).
  exists (a + b). apply dict_lookup_set_eq.
Qed.

Lemma merged_fields (rel : fields) (later : list fields) (a : Z) :
  dict_lookup "count" rel = Some (VInt a) ->
  let rel' := fold_left (fun rel r => merge_row (Some rel) r) later rel in
  dict_lookup "tip" rel' = dict_lookup "tip" rel
  /\ exists n, dict_lookup "count" rel' = Some (VInt n).
Proof.
  revert rel a. induction later as [|r later IH]; intros rel a Ha.
  - split; [reflexivity | now exists a].
  - destruct (merge_row_count rel r a Ha) as [b Hb].
    destruct (IH _ b Hb) as [Htip Hcount].
    cbn [fold_left]. split; [now rewrite Htip, merge_row_tip | exact Hcount].
Qed.

Lemma stored_rel_fields (row : fields) (later : list fields) (a : Z) :
  dict_lookup "count" row = Some (VInt a) ->
  dict_lookup "tip" (stored_rel row later) = dict_lookup "tip" row
  /\ exists n, dict_lookup "count" (stored_rel row later) = Some (VInt n).
Proof. intros Ha. exact (merged_fields row later a Ha). Qed.

Lemma get_graph_edge_tip `{Collaborators} (rel : fields)
      (source_id target_id : value) (uuid : string) (edge : fields)
      (tip : string) (n : value) :
  get_graph_edge rel source_id target_id uuid = Ok edge ->
  dict_lookup "tip" rel = Some (VStr tip) ->
  dict_lookup "count" rel = Some n ->
  dict_lookup "tip" edge = Some (VStr (tip ++ "<br>Count: " ++ format n)).
Proof.
  intros Hedge Ht Hn. unfold get_graph_edge, dict_item in Hedge.
  cbv zeta in Hedge.
  rewrite !dict_lookup_set_ne in Hedge by discriminate.
  rewrite Ht, bind_ok, Hn, bind_ok in Hedge.
  destruct (dict_lookup "id" _); [discriminate|].
  injection Hedge as <-. unfold RelationshipInDB.
  now rewrite dict_lookup_app, dict_lookup_set_eq.
Qed.

(** The edges of [get_graph] are built by [get_graph_edge], one for each
    row and in the order of the rows. *)
Lemma get_graph_rows_edges `{Collaborators} (uuid : nat -> string)
      (res : list (fields * fields * fields)) (nodes : node_table)
      (edges : list fields) (nodes' : node_table) (edges' : list fields) :
  get_graph_rows uuid res nodes edges = Ok (nodes', edges') ->
  exists new,
    edges' = (edges ++ new)%list
    /\ Forall2 (fun (row : fields * fields * fields) edge =>
                  exists s t u,
                    get_graph_edge (snd (fst row)) s t u = Ok edge)
               res new.
Proof.
  revert nodes edges. induction res as [|[[source rel] target] res IH];
    intros nodes edges Hrun.
  - injection Hrun as <- <-. exists []. split; [now rewrite app_nil_r|].
    constructor.
  - cbn [get_graph_rows] in Hrun.
    destruct (get_or_add_node nodes source) as [[n1 s]|];
      rewrite ?bind_ok, ?bind_raise in Hrun; [|discriminate].
    cbn [fst snd] in Hrun.
    destruct (get_or_add_node n1 target) as [[n2 t]|];
      rewrite ?bind_ok, ?bind_raise in Hrun; [|discriminate].
    cbn [fst snd] in Hrun.
    destruct (get_graph_edge rel s t _) as [edge|] eqn:E3;
      rewrite ?bind_ok, ?bind_raise in Hrun; [|discriminate].
    destruct (IH _ _ Hrun) as (new & -> & Hall).
    exists (edge :: new). split; [now rewrite <- app_assoc|].
    constructor; [|exact Hall]. now exists s, t, (uuid (length edges)).
Qed.

Lemma Forall2_nth_error {A B : Type} (P : A -> B -> Prop) (l : list A)
      (k : list B) (i : nat) (x : A) :
  Forall2 P l k -> nth_error l i = Some x ->
  exists y, nth_error k i = Some y /\ P x y.
Proof.
  intros Hall. revert i.
  induction Hall as [|a b l k Hab _ IH]; intros [|i] Hi; simpl in Hi;
    try discriminate.
  - injection Hi as <-. now exists b.
  - exact (IH i Hi).
Qed.

(** C8. Take a relationship of the store, the row [add_evtx_store]
    exports for it, and the relationship of the graph created from that
    row and matched by any later rows. When
    [get_graph] returns for a result in which this relationship is the row
    of index [i], the edge of index [i] has as tip the fields of the
    relationship other than source, target, timestamps, count, source_type
    and target_type, each as [key: value], joined by [<br>], followed by
    [<br>Count: N] for the count N stored in the graph, which is the count
    of the relationship when no later row matched. *)
Theorem tooltip_text `{Collaborators} (e : Relationship) (row : fields)
        (later : list fields) (uuid : nat -> string)
        (res : list (fields * fields * fields)) (nodes edges : list fields)
        (i : nat) (source_node target_node : fields) :
  export_event e = Ok row ->
  nth_error res i = Some (source_node, stored_rel row later, target_node) ->
  get_graph uuid res = Ok (nodes, edges) ->
  exists n edge,
    dict_lookup "count" (stored_rel row later) = Some (VInt n)
    /\ nth_error edges i = Some edge
    /\ dict_lookup "tip" edge
       = Some (VStr (join "<br>"
                       (map (fun kv => fst kv ++ ": " ++ format (snd kv))
                            (exclude ["source"; "target"; "timestamps"; "count";
                                      "source_type"; "target_type"]
                                     (relationship_dict e)))
                     ++ "<br>Count: " ++ format (VInt n)))
    /\ (later = [] -> n = count e).
Proof.
  intros Hrow Hi Hgraph.
  destruct (stored_rel_fields row later (count e)
              (export_event_count e row Hrow)) as [Htip [n Hn]].
  rewrite (export_event_tip e row Hrow) in Htip.
  unfold get_graph in Hgraph.
  destruct (get_graph_rows uuid res [] []) as [[table found]|] eqn:Hrows;
    rewrite ?bind_ok, ?bind_raise in Hgraph; [|discriminate].
  cbn [fst snd] in Hgraph. injection Hgraph as <- <-.
  destruct (get_graph_rows_edges _ _ _ _ _ _ Hrows) as (new & -> & Hall).
  cbn [app].
  destruct (Forall2_nth_error _ _ _ _ _ Hall Hi)
    as (edge & Hedge & s & t & u & Hbuilt).
  cbn [fst snd] in Hbuilt.
  exists n, edge. split; [exact Hn|]. split; [exact Hedge|].
  split; [exact (get_graph_edge_tip _ _ _ _ _ _ _ Hbuilt Htip Hn)|].
  intros ->. unfold stored_rel in Hn. simpl in Hn.
  rewrite (export_event_count e row Hrow) in Hn. congruence.
Qed.

Lemma tooltip_text_witness :
  @export_event (sample []) logons_alice = Ok logons_alice_row
  /\ nth_error sample_rows 0
     = Some (node_alice, stored_rel logons_alice_row [], node_srv01)
  /\ exists nodes edges,
       @get_graph (sample []) sample_uuid sample_rows = Ok (nodes, edges)
       /\ option_map (dict_lookup "tip") (nth_error edges 0)
          = Some (Some (VStr ("event_type: 4624<br>logon_type: 3"
                              ++ "<br>auth_package: NTLM<br>Count: 2")))
       /\ exists n edge,
            dict_lookup "count" (stored_rel logons_alice_row []) = Some (VInt n)
            /\ nth_error edges 0 = Some edge
            /\ dict_lookup "tip" edge
               = Some (VStr (join "<br>"
                               (map (fun kv =>
                                       fst kv ++ ": " ++ sample_format (snd kv))
                                    (exclude ["source"; "target"; "timestamps";
                                              "count"; "source_type";
                                              "target_type"]
                                             (relationship_dict logons_alice)))
                             ++ "<br>Count: " ++ sample_format (VInt n)))
            /\ (@nil fields = [] -> n = count logons_alice).
Proof.
  assert (Hrow : @export_event (sample []) logons_alice = Ok logons_alice_row)
    by (vm_compute; reflexivity).
  assert (Hi : nth_error sample_rows 0
               = Some (node_alice, stored_rel logons_alice_row [], node_srv01))
    by reflexivity.
  split; [exact Hrow|]. split; [exact Hi|].
  destruct (@get_graph (sample []) sample_uuid sample_rows)
    as [[nodes edges]|] eqn:E; [|vm_compute in E; discriminate].
  exists nodes, edges. split; [reflexivity|].
  split; [vm_compute in E; injection E as <- <-; vm_compute; reflexivity|].
  exact (@tooltip_text (sample []) logons_alice logons_alice_row [] sample_uuid
           sample_rows nodes edges 0 node_alice node_srv01 Hrow Hi E).
Defined.

(** ** Exported lists *)










Lemma make_datetime_valid (y m d H M S us : Z) (t : datetime) :
  make_datetime y m d H M S us = Ok t -> valid_datetime t.
Proof.
  unfold make_datetime.
  destruct (_ && _) eqn:E; [|discriminate]. intros [= <-].
  rewrite !andb_true_iff, !Z.leb_le in E. unfold valid_datetime. simpl. lia.
Qed.












(* ================================================================== *)
(** * Further properties of [core/evtx.py] *)

(** ** What the prefilter accepts *)

Lemma drop_prefix_exact (p s rest : string) :
  drop_prefix false p s = Some rest -> s = p ++ rest.
Proof.
  revert s. induction p as [|a p IH]; intros s H.
  - now injection H as ->.
  - destruct s as [|b s]; [discriminate|]. simpl in H.
    destruct (Ascii.eqb_spec a b) as [-> | _]; [|discriminate].
    rewrite append_cons. f_equal. now apply IH.
Qed.

Lemma rmatch_lit_exact (p s : string) (m : captures * string) :
  In m (rmatch false (RLit p) s) -> s = p ++ snd m.
Proof.
  simpl. destruct (drop_prefix false p s) as [rest|] eqn:E; [|intros []].
  intros [<- | []]. now apply drop_prefix_exact.
Qed.

Lemma rmatch_literals_exact (ids : list Z) (s : string)
      (m : captures * string) :
  ids <> [] ->
  In m (rmatch false (alternation (map (fun i => RLit (str i)) ids)) s) ->
  exists i, In i ids /\ s = str i ++ snd m.
Proof.
  induction ids as [|i ids IH]; intros Hne Hm; [contradiction|].
  destruct ids as [|j ids].
  - exists i. split; [now left | now apply rmatch_lit_exact].
  - change (alternation (map (fun i => RLit (str i)) (i :: j :: ids)))
      with (RAlt (RLit (str i))
                 (alternation (map (fun i => RLit (str i)) (j :: ids)))) in Hm.
    simpl rmatch in Hm. apply in_app_or in Hm as [Hm | Hm].
    + exists i. split; [now left | now apply rmatch_lit_exact].
    + destruct (IH ltac:(discriminate) Hm) as (k & Hk & Hs).
      exists k. split; [now right | exact Hs].
Qed.

Lemma re_search_found (ic : bool) (r : regex) (s : string)
      (m : captures * string) :
  re_search ic r s = Some m ->
  exists pre rest, s = pre ++ rest /\ In m (rmatch ic r rest).
Proof.
  assert (Hhead : forall t, re_match ic r t = Some m -> In m (rmatch ic r t)).
  { intros t. unfold re_match. destruct (rmatch ic r t); [discriminate|].
    intros [= ->]. now left. }
  induction s as [|c s IH]; simpl.
  - destruct (re_match ic r EmptyString) eqn:E; [|discriminate].
    intros [= ->]. exists EmptyString, EmptyString. split; [reflexivity|].
    now apply Hhead.
  - destruct (re_match ic r (String c s)) eqn:E.
    + intros [= ->]. exists EmptyString, (String c s).
      split; [reflexivity | now apply Hhead].
    + intros H. destruct (IH H) as (pre & rest & -> & Hin).
      exists (String c pre), rest. split; [reflexivity | exact Hin].
Qed.

Lemma rmatch_group_unfold (ic : bool) (name : string) (r : regex)
      (s : string) :
  rmatch ic (RGroup name r) s
  = map (fun m : captures * string =>
           ((fst m ++ [(name, consumed s (snd m))])%list, snd m))
        (rmatch ic r s).
Proof. reflexivity. Qed.

Lemma prefilter_accepts (pre post : string) (id : Z) :
  In id (keys supported_events) ->
  prefilter (pre ++ "<EventID>" ++ str id ++ "<" ++ post) = true.
Proof.
  intros Hid. unfold prefilter, USEFULL_EVENTS_STR, usefull_events_pattern.
  set (alt := alternation _).
  assert (Halt : In ([], "<" ++ post)
                    (rmatch false alt (str id ++ "<" ++ post))).
  { apply rmatch_alternation with (r := RLit (str id)).
    - apply in_map_iff. now exists id.
    - rewrite rmatch_lit_append. now left. }
  apply rmatch_group with (name := "1") in Halt.
  assert (Hlt : In ([], post) (rmatch false (RLit "<") ("<" ++ post)))
    by (rewrite rmatch_lit_append; now left).
  pose proof (rmatch_seq false _ _ _ _ _ Halt Hlt) as Hseq.
  assert (Hev : In ([], str id ++ "<" ++ post)
                   (rmatch false (RLit "<EventID>")
                           ("<EventID>" ++ str id ++ "<" ++ post)))
    by (rewrite rmatch_lit_append; now left).
  pose proof (rmatch_seq false _ _ _ _ _ Hev Hseq) as Hall.
  destruct (re_search_append false _ pre _ _ Hall) as [m' Hm'].
  now rewrite Hm'.
Qed.

(** The prefilter accepts a text exactly when it contains [<EventID>id<]
    for an id of the dispatch table: an [EventID] element with an
    attribute, or with white space around the number, is rejected whatever
    its id. *)
Theorem prefilter_exact (data : string) :
  prefilter data = true
  <-> exists pre id post,
        In id (keys supported_events)
        /\ data = pre ++ "<EventID>" ++ str id ++ "<" ++ post.
Proof.
  split.
  - unfold prefilter.
    destruct (re_search false USEFULL_EVENTS_STR data) as [m|] eqn:E;
      [intros _ | discriminate].
    apply re_search_found in E as (pre & rest & -> & Hin).
    unfold USEFULL_EVENTS_STR, usefull_events_pattern in Hin.
    rewrite rmatch_seq_unfold in Hin.
    apply in_flat_map in Hin as (m1 & H1 & Hin).
    apply in_map_iff in Hin as (m2 & _ & H2).
    apply rmatch_lit_exact in H1.
    rewrite rmatch_seq_unfold in H2.
    apply in_flat_map in H2 as (m3 & H3 & H2).
    apply in_map_iff in H2 as (m4 & _ & H4).
    apply rmatch_lit_exact in H4.
    rewrite rmatch_group_unfold in H3.
    apply in_map_iff in H3 as (m5 & <- & H5).
    apply rmatch_literals_exact in H5 as (id & Hid & Hs);
      [|intros Hk; discriminate Hk].
    cbn [snd] in H4. exists pre, id, (snd m4). split; [exact Hid|].
    now rewrite H1, Hs, H4.
  - intros (pre & id & post & Hid & ->). now apply prefilter_accepts.
Qed.

(** ** The loop of [parse_evtx] *)

Lemma bind_assoc {A B C : Type} (r : result A) (f : A -> result B)
      (g : B -> result C) :
  ((r ≫= f) ≫= g) = (r ≫= fun a => f a ≫= g).
Proof. now destruct r. Qed.

(** Ingesting a stream made of two parts is ingesting the first part and
    then, from the store it leaves, the second; an exception in the first
    part is the result and the second part is not read. *)
Theorem parse_records_app `{Collaborators} (first second : list (result string))
        (store : Datastore) :
  parse_records (first ++ second) store
  = (store' ← parse_records first store; parse_records second store').
Proof.
  revert store. induction first as [|[data|e] first IH]; intros store.
  - reflexivity.
  - rewrite <- app_comm_cons.
    destruct (prefilter data) eqn:Hp.
    + rewrite !(parse_records_step _ _ _ Hp), bind_assoc.
      destruct (process_record store data) as [s|e];
        rewrite ?bind_ok, ?bind_raise; [apply IH | reflexivity].
    + rewrite !(parse_records_skip _ _ _ Hp). apply IH.
  - reflexivity.
Qed.

(** The records the prefilter rejects have no effect at all: the result of
    the loop, store or exception, is that of the stream without them. *)
Theorem parse_records_rejected `{Collaborators} (records : list (result string))
        (store : Datastore) :
  parse_records (List.filter reaches_parser records) store
  = parse_records records store.
Proof.
  revert store. induction records as [|[data|e] records IH]; intros store.
  - reflexivity.
  - cbn [List.filter reaches_parser]. destruct (prefilter data) eqn:Hp.
    + rewrite !(parse_records_step _ _ _ Hp).
      destruct (process_record store data) as [s|e'];
        rewrite ?bind_ok, ?bind_raise; [apply IH | reflexivity].
    + rewrite (parse_records_skip _ _ _ Hp). apply IH.
  - reflexivity.
Qed.

(** ** The exceptions of [convert_logtime] *)

(** Called with a string, [convert_logtime] can only raise [ValueError]:
    the bare [except] swallows the exception of the first attempt, and the
    second attempt then fails in [strptime]. *)
Lemma convert_logtime_str_raises (logtime : string) (tzone : Z) (e : exc) :
  convert_logtime logtime tzone = Raise e -> e = ValueError.
Proof.
  unfold convert_logtime. rewrite convert_logtime_via_first.
  destruct (strptime _ _) as [dt|e1]; rewrite ?bind_ok, ?bind_raise.
  - destruct (add_hours dt tzone) as [t|e2]; rewrite ?bind_ok, ?bind_raise.
    + discriminate.
    + now intros [= <-].
  - now intros [= <-].
Qed.

(** [get_event_from_xml] calls [convert_logtime] with what
    [get("SystemTime")] returns, a string or [None]. For [None] the call
    raises [AttributeError] at [logtime.split], which is outside the
    [try]. For a string, whatever goes wrong, it raises [ValueError]: the
    bare [except] swallows the exception of the first attempt, also the
    [OverflowError] of an offset that leaves the years 1 to 9999, and the
    second attempt then fails in [strptime]. *)
Theorem convert_logtime_exception (logtime : option string) (e : exc) :
  convert_logtime_opt logtime = Raise e ->
  e = match logtime with
      | Some _ => ValueError
      | None => AttributeError
      end.
Proof.
  destruct logtime as [s|]; cbn [convert_logtime_opt].
  - apply convert_logtime_str_raises.
  - now intros [= <-].
Qed.

Lemma convert_logtime_exception_witness :
  strptime (tzless_of "9999-12-31 23:30:00") "%Y-%m-%d %H:%M:%S"
  = Ok (mkdatetime 9999 12 31 23 30 0 0)
  /\ add_hours (mkdatetime 9999 12 31 23 30 0 0) 1 = Raise OverflowError
  /\ convert_logtime_opt (Some "9999-12-31 23:30:00") = Raise ValueError
  /\ convert_logtime_opt None = Raise AttributeError
  /\ ValueError = ValueError
  /\ AttributeError = AttributeError.
Proof.
  split; [vm_compute; reflexivity|]. split; [vm_compute; reflexivity|].
  assert (H : convert_logtime_opt (Some "9999-12-31 23:30:00")
              = Raise ValueError) by (vm_compute; reflexivity).
  assert (H' : convert_logtime_opt None = Raise AttributeError)
    by reflexivity.
  split; [exact H|]. split; [exact H'|].
  split; [exact (convert_logtime_exception _ _ H)|].
  exact (convert_logtime_exception _ _ H').
Defined.

(* ================================================================== *)
(** * Further properties of [core/neo4j.py] *)

(** ** The batches of [chunker] *)

Lemma nth_error_map_seq {B : Type} (f : nat -> B) (m i : nat) (b : B) :
  nth_error (map f (seq 0 m)) i = Some b -> (i < m)%nat /\ b = f i.
Proof.
  intros Hn.
  assert (Hi : (i < m)%nat).
  { assert (Hs : nth_error (map f (seq 0 m)) i <> None) by congruence.
    apply nth_error_Some in Hs. now rewrite length_map, length_seq in Hs. }
  split; [exact Hi|].
  rewrite nth_error_map, (nth_error_nth' _ O) in Hn
    by now rewrite length_seq.
  rewrite seq_nth in Hn by exact Hi. simpl in Hn. congruence.
Qed.

Lemma chunker_batch_count {A : Type} (l : list A) (size : Z)
      (chunks : list (list A)) :
  0 < size ->
  chunker l size = Ok chunks ->
  Z.of_nat (length chunks) = (Z.of_nat (length l) + size - 1) / size.
Proof.
  intros Hs Hc. rewrite (chunker_positive l size Hs) in Hc.
  injection Hc as <-.
  destruct (chunk_count (Z.of_nat (length l)) size ltac:(lia) Hs)
    as (Hq & _ & _).
  rewrite length_map, length_seq. lia.
Qed.

(** For a size above zero, the number of batches is the length divided by
    the size, rounded up; the batch of index [i] is the slice from [i *
    size] to [i * size + size]; and every batch but the last is full. *)
Theorem chunker_full_batches {A : Type} (l : list A) (size : Z)
        (chunks : list (list A)) :
  0 < size ->
  chunker l size = Ok chunks ->
  Z.of_nat (length chunks) = (Z.of_nat (length l) + size - 1) / size
  /\ (forall i c, nth_error chunks i = Some c ->
        c = slice l (Z.of_nat i * size) (Z.of_nat i * size + size))
  /\ (forall i c, nth_error chunks i = Some c ->
        (S i < length chunks)%nat -> Z.of_nat (length c) = size).
Proof.
  intros Hs Hc. rewrite (chunker_positive l size Hs) in Hc.
  injection Hc as <-.
  set (k := Z.to_nat size). set (n := Z.of_nat (length l)).
  destruct (chunk_count n size ltac:(lia) Hs) as (Hq & Hup & Hlow).
  set (q := (n + size - 1) / size) in *.
  rewrite length_map, length_seq.
  split; [lia|]. split.
  - intros i c Hn. apply nth_error_map_seq in Hn as [_ ->]. unfold slice.
    replace (Z.of_nat i * size + size - Z.of_nat i * size) with size by lia.
    now rewrite Z2Nat.inj_mul, Nat2Z.id by lia.
  - intros i c Hn Hlast. apply nth_error_map_seq in Hn as [_ ->].
    rewrite length_take, length_drop. subst k n. nia.
Qed.

Lemma chunker_full_batches_witness :
  0 < 2
  /\ chunker [10; 20; 30; 40; 50] 2 = Ok [[10; 20]; [30; 40]; [50]]
  /\ Z.of_nat (length [[10; 20]; [30; 40]; [50]])
     = (Z.of_nat (length [10; 20; 30; 40; 50]) + 2 - 1) / 2.
Proof.
  assert (H : chunker [10; 20; 30; 40; 50] 2 = Ok [[10; 20]; [30; 40]; [50]])
    by reflexivity.
  split; [lia|]. split; [exact H|].
  exact (proj1 (chunker_full_batches [10; 20; 30; 40; 50] 2 _ ltac:(lia) H)).
Defined.

(** A size of zero is a [ValueError] of [range]; with a size below zero
    [range] is empty and [chunker] yields no batch at all, whatever the
    list. *)
Theorem chunker_size_not_positive {A : Type} (l : list A) (size : Z) :
  size <= 0 ->
  chunker l size = if size =? 0 then Raise ValueError else Ok [].
Proof.
  intros Hs. unfold chunker, py_range.
  destruct (Z.eqb_spec size 0); [reflexivity|].
  destruct (Z.ltb_spec size 0); [reflexivity | lia].
Qed.

Lemma chunker_size_not_positive_witness :
  -1 <= 0 /\ chunker [10; 20; 30] (-1) = Ok [].
Proof.
  split; [lia|].
  exact (chunker_size_not_positive [10; 20; 30] (-1) ltac:(lia)).
Defined.

(** ** The calls of [add_evtx_store] *)

Lemma result_map_raised {A B : Type} (f : A -> result B) (l : list A)
      (e : exc) :
  result_map f l = Raise e -> exists x, In x l /\ f x = Raise e.
Proof.
  induction l as [|x l IH]; cbn [result_map]; [discriminate|].
  destruct (f x) as [y|e'] eqn:E; rewrite ?bind_ok, ?bind_raise.
  - destruct (result_map f l) as [ys|e'']; rewrite ?bind_ok, ?bind_raise;
      [discriminate|].
    intros [= <-]. destruct (IH eq_refl) as (x' & Hin & Hx').
    exists x'. split; [now right | exact Hx'].
  - intros [= <-]. exists x. split; [now left | exact E].
Qed.

(** [add_evtx_store] builds the rows of the relationships before it opens
    the session. When a timestamp of a relationship cannot be converted,
    or a relationship has a field named [tip], it raises the exception of
    that conversion, or a [TypeError], and makes no call. When
    the rows are built, it makes three calls for the groups, the users
    and the machines, in this order and also when a table is empty, then
    one call for every 10,000 relationships or part of it: none when the
    store has no relationship. Every call carries the folder. *)
Theorem add_evtx_store_call_count `{Collaborators} (store : Datastore)
        (folder : string) :
  match exported_events store with
  | Raise e =>
      add_evtx_store store folder = Raise e
      /\ exists key rel,
           In (key, rel) (relationships store)
           /\ ((exists ts, In ts (timestamps rel)
                           /\ epoch_seconds ts = Raise e)
               \/ (e = TypeError
                   /\ dict_lookup "tip" (relationship_dict rel) <> None))
  | Ok events =>
      exists calls,
        add_evtx_store store folder = Ok calls
        /\ length events = length (relationships store)
        /\ Z.of_nat (length calls)
           = 3 + (Z.of_nat (length (relationships store)) + 9999) / 10000
        /\ map run_query (firstn 3 calls) = [AddGroups; AddUsers; AddMachines]
        /\ map (fun c => length (run_rows c)) (firstn 3 calls)
           = [length (groups store); length (users store);
              length (machines store)]
        /\ Forall (fun c => run_query c = AddEvents) (skipn 3 calls)
        /\ Forall (fun c => run_folder c = folder) calls
  end.
Proof.
  unfold add_evtx_store.
  destruct (exported_events store) as [events|e] eqn:Hev;
    rewrite ?bind_ok, ?bind_raise.
  2:{ split; [reflexivity|]. unfold exported_events, values in Hev.
      apply result_map_raised in Hev as (rel & Hin & Hrel).
      apply in_map_iff in Hin as ([key rel'] & Hsnd & Hin).
      cbn [snd] in Hsnd. subst rel'. exists key, rel. split; [exact Hin|].
      rewrite export_event_unfold in Hrel.
      destruct (result_map epoch_seconds (timestamps rel)) as [seconds|e']
        eqn:Hts; rewrite ?bind_ok, ?bind_raise in Hrel.
      - right. destruct (dict_lookup "tip" (relationship_dict rel));
          [|discriminate].
        injection Hrel as <-. split; [reflexivity | discriminate].
      - injection Hrel as ->.
        apply result_map_raised in Hts as (ts & Hts & Hraise).
        left. now exists ts. }
  assert (Hlen : length events = length (relationships store)).
  { unfold exported_events, values in Hev. apply result_map_Forall2 in Hev.
    apply Forall2_length in Hev. now rewrite length_map in Hev. }
  destruct (chunker events CHUNK_SIZE) as [chunks|e] eqn:Hc.
  2:{ rewrite (chunker_positive _ CHUNK_SIZE ltac:(reflexivity)) in Hc.
      discriminate. }
  pose proof (chunker_batch_count events CHUNK_SIZE chunks
                ltac:(reflexivity) Hc) as Hcount.
  rewrite bind_ok. eexists. split; [reflexivity|].
  split; [exact Hlen|]. split.
  { rewrite length_app, length_map. rewrite Hlen in Hcount.
    unfold CHUNK_SIZE in Hcount. simpl length.
    replace (Z.of_nat (length (relationships store)) + 9999)
      with (Z.of_nat (length (relationships store)) + 10000 - 1) by lia.
    lia. }
  split; [reflexivity|].
  split; [cbn; unfold values; now rewrite !length_map|].
  split.
  - cbn [skipn app]. apply Forall_forall. intros c Hin.
    apply list_elem_of_In, in_map_iff in Hin as (chunk & <- & _). reflexivity.
  - apply Forall_app. split.
    + repeat constructor.
    + apply Forall_forall. intros c Hin.
      apply list_elem_of_In, in_map_iff in Hin as (chunk & <- & _). reflexivity.
Qed.

(** ** The [MERGE] of the query for the events *)

Lemma merge_row_other (rel row : fields) (key : string) :
  key <> "count" ->
  dict_lookup key (merge_row (Some rel) row) = dict_lookup key rel.
Proof.
  intros Hk. unfold merge_row.
  destruct (dict_lookup "count" rel) as [[| | a | | | | |]|]; try reflexivity.
  destruct (dict_lookup "count" row) as [[| | b | | | | |]|]; try reflexivity.
  apply dict_lookup_set_ne. congruence.
Qed.

Lemma merged_counts (rel : fields) (later : list fields) (a : Z)
      (bs : list Z) :
  dict_lookup "count" rel = Some (VInt a) ->
  Forall2 (fun r b => dict_lookup "count" r = Some (VInt b)) later bs ->
  dict_lookup "count"
    (fold_left (fun rel r => merge_row (Some rel) r) later rel)
  = Some (VInt (a + fold_right Z.add 0 bs)).
Proof.
  intros Ha Hall. revert rel a Ha.
  induction Hall as [|r b later bs Hb _ IH]; intros rel a Ha.
  - simpl. rewrite Ha. do 2 f_equal. lia.
  - cbn [fold_left fold_right].
    rewrite (IH (merge_row (Some rel) r) (a + b)).
    + do 2 f_equal. lia.
    + unfold merge_row. rewrite Ha, Hb. apply dict_lookup_set_eq.
Qed.

(** A relationship of the graph created from a row and matched by later
    rows has the count of all of them added up, and for every other
    property the value of the first row: the query never adds the
    timestamps of a later row, nor changes the tip. *)
Theorem merge_adds_counts_only (row : fields) (later : list fields) (a : Z)
        (bs : list Z) :
  dict_lookup "count" row = Some (VInt a) ->
  Forall2 (fun r b => dict_lookup "count" r = Some (VInt b)) later bs ->
  dict_lookup "count" (stored_rel row later)
  = Some (VInt (a + fold_right Z.add 0 bs))
  /\ forall key, key <> "count" ->
       dict_lookup key (stored_rel row later) = dict_lookup key row.
Proof.
  intros Ha Hall. split.
  - exact (merged_counts row later a bs Ha Hall).
  - intros key Hk. clear Ha Hall. unfold stored_rel. cbn [merge_row].
    generalize row. induction later as [|r later' IH]; intros rel.
    + reflexivity.
    + cbn [fold_left]. rewrite IH. now apply merge_row_other.
Qed.

(** ** The window of a folder *)










(** ** The nodes and edges of [get_graph] *)

Lemma table_get_in (key : value) (nodes : node_table) (n : fields) :
  table_get key nodes = Some n -> In (key, n) nodes.
Proof.
  induction nodes as [|[k old] nodes IH]; simpl; [discriminate|].
  case_bool_decide as Hk.
  - intros [= <-]. subst k. now left.
  - intros H. right. now apply IH.
Qed.

Lemma table_get_key (key : value) (nodes : node_table) :
  In key (table_keys nodes) -> exists n, table_get key nodes = Some n.
Proof.
  induction nodes as [|[k old] nodes IH]; simpl; [intros []|].
  case_bool_decide as Hk; [now exists old|].
  intros [H | H]; [contradiction | now apply IH].
Qed.

Lemma table_get_none (key : value) (nodes : node_table) :
  table_get key nodes = None -> ~ In key (table_keys nodes).
Proof.
  intros Hn Hin. destruct (table_get_key _ _ Hin) as [n Hs]. congruence.
Qed.

Lemma table_set_keys (key : value) (n : fields) (nodes : node_table)
      (k : value) :
  In k (table_keys (table_set key n nodes)) <-> k = key \/ In k (table_keys nodes).
Proof.
  induction nodes as [|[k0 old] nodes IH]; simpl.
  - intuition.
  - case_bool_decide as Hk; simpl.
    + subst k0. intuition.
    + rewrite IH. intuition.
Qed.

Lemma table_set_nodup (key : value) (n : fields) (nodes : node_table) :
  NoDup (table_keys nodes) -> NoDup (table_keys (table_set key n nodes)).
Proof.
  unfold table_keys.
  induction nodes as [|[k0 old] nodes IH]; simpl; intros Hnd.
  - apply NoDup_cons_2; [apply not_elem_of_nil | apply NoDup_nil_2].
  - apply NoDup_cons in Hnd as [Hk0 Hnd].
    case_bool_decide as Hk; simpl.
    + now apply NoDup_cons_2.
    + apply NoDup_cons_2; [|now apply IH].
      rewrite list_elem_of_In. intros Hin.
      apply (table_set_keys key n nodes k0) in Hin as [-> | Hin];
        [contradiction|].
      apply Hk0. now apply list_elem_of_In.
Qed.

Lemma table_set_entries (key : value) (n : fields) (nodes : node_table)
      (k : value) (m : fields) :
  In (k, m) (table_set key n nodes) ->
  (k = key /\ m = n) \/ In (k, m) nodes.
Proof.
  induction nodes as [|[k0 old] nodes IH]; simpl.
  - intros [[= <- <-] | []]. now left.
  - case_bool_decide as Hk; simpl.
    + subst k0. intros [[= <- <-] | H]; [now left | right; now right].
    + intros [H | H]; [right; now left|].
      destruct (IH H) as [Hl | Hr]; [now left | right; now right].
Qed.

Lemma table_get_set (key : value) (n : fields) (nodes : node_table) :
  table_get key (table_set key n nodes) = Some n.
Proof.
  induction nodes as [|[k0 old] nodes IH]; simpl.
  - now rewrite bool_decide_eq_true_2.
  - case_bool_decide as Hk; simpl.
    + now rewrite bool_decide_eq_true_2.
    + now rewrite bool_decide_eq_false_2.
Qed.

Lemma table_ok_set (key : value) (n : fields) (nodes : node_table) :
  table_ok nodes ->
  dict_lookup "id" n = Some key ->
  (forall p, dict_lookup "parent" n = Some p ->
     p = key \/ In p (table_keys nodes)) ->
  table_ok (table_set key n nodes).
Proof.
  intros (Hnd & Hid & Hpar) Hn Hp. split; [now apply table_set_nodup|]. split.
  - intros k m Hin. apply table_set_entries in Hin as [[-> ->] | Hin];
      [exact Hn | now apply (Hid k m)].
  - intros k m p Hin Hm. apply table_set_keys.
    apply table_set_entries in Hin as [[-> ->] | Hin].
    + now apply Hp.
    + right. now apply (Hpar k m p).
Qed.

Lemma dict_item_ok (key : string) (d : fields) (v : value) :
  dict_item key d = Ok v -> dict_lookup key d = Some v.
Proof. unfold dict_item. destruct (dict_lookup key d); now intros [= <-]. Qed.

(** What a call of [_get_or_add_node] leaves. *)
Lemma get_or_add_node_ok `{Collaborators} (nodes : node_table) (node : fields)
      (nodes' : node_table) (i : value) :
  table_ok nodes ->
  get_or_add_node nodes node = Ok (nodes', i) ->
  table_ok nodes'
  /\ (forall k, In k (table_keys nodes) -> In k (table_keys nodes'))
  /\ In i (table_keys nodes')
  /\ dict_lookup "id" node = Some i.
Proof.
  intros Hok. unfold get_or_add_node.
  destruct (dict_item "id" node) as [node_id|e] eqn:Eid;
    rewrite ?bind_ok, ?bind_raise; [|discriminate].
  apply dict_item_ok in Eid.
  destruct (table_get node_id nodes) as [known|] eqn:Eget.
  - apply table_get_in in Eget.
    pose proof (proj1 (proj2 Hok) _ _ Eget) as Hknown.
    unfold dict_item. rewrite Hknown, bind_ok. intros [= <- <-].
    split; [exact Hok|]. split; [auto|]. split; [|exact Eid].
    unfold table_keys. apply in_map_iff. now exists (node_id, known).
  - unfold Observable.
    destruct (dict_item "label" node) as [label|e];
      rewrite ?bind_ok, ?bind_raise; [|discriminate].
    destruct (py_len label) as [len|e];
      rewrite ?bind_ok, ?bind_raise; [|discriminate].
    destruct (dict_item "algo_lpa" node) as [algo|e];
      rewrite ?bind_ok, ?bind_raise; [|discriminate].
    set (compound_id := "Compound-" ++ format algo).
    set (new_node := dict_set "parent" (VStr compound_id)
                       (dict_set "width" (VInt (10 + len * 11)) node)).
    set (nodes1 := match table_get (VStr compound_id) nodes with
                   | Some _ => nodes
                   | None => table_set (VStr compound_id)
                               (compound_node compound_id) nodes
                   end).
    assert (Hnew_id : dict_lookup "id" new_node = Some node_id).
    { unfold new_node. now rewrite !dict_lookup_set_ne by discriminate. }
    unfold dict_item. rewrite Hnew_id, bind_ok. intros [= <- <-].
    assert (Hok1 : table_ok nodes1
                   /\ (forall k, In k (table_keys nodes) ->
                                 In k (table_keys nodes1))
                   /\ In (VStr compound_id) (table_keys nodes1)).
    { unfold nodes1.
      destruct (table_get (VStr compound_id) nodes) as [c|] eqn:Ec.
      - split; [exact Hok|]. split; [auto|].
        apply table_get_in in Ec. unfold table_keys. apply in_map_iff.
        now exists (VStr compound_id, c).
      - split; [|split].
        + apply table_ok_set; [exact Hok | reflexivity | discriminate].
        + intros k Hk. apply table_set_keys. now right.
        + apply table_set_keys. now left. }
    destruct Hok1 as (Hok1 & Hmono & Hcomp).
    split; [|split; [|split]].
    + apply table_ok_set; [exact Hok1 | exact Hnew_id|].
      intros p Hp. unfold new_node in Hp.
      rewrite dict_lookup_set_eq in Hp. injection Hp as <-. now right.
    + intros k Hk. apply table_set_keys. right. now apply Hmono.
    + apply table_set_keys. now left.
    + exact Eid.
Qed.

(** A node that has been added is found again: a second call for it
    leaves the dict as it is and returns the same id. *)
Theorem get_or_add_node_idempotent `{Collaborators} (nodes : node_table)
        (node : fields) (nodes' : node_table) (i : value) :
  table_ok nodes ->
  get_or_add_node nodes node = Ok (nodes', i) ->
  get_or_add_node nodes' node = Ok (nodes', i).
Proof.
  intros Hok Hcall.
  destruct (get_or_add_node_ok _ _ _ _ Hok Hcall) as (Hok' & _ & Hin & Hid).
  unfold get_or_add_node, dict_item. rewrite Hid, bind_ok.
  destruct (table_get_key _ _ Hin) as [n Hn]. rewrite Hn.
  apply table_get_in in Hn.
  now rewrite (proj1 (proj2 Hok') _ _ Hn), bind_ok.
Qed.

Lemma get_graph_edge_ends `{Collaborators} (rel : fields) (s t : value)
      (uuid : string) (e : fields) :
  get_graph_edge rel s t uuid = Ok e ->
  dict_lookup "source" e = Some s /\ dict_lookup "target" e = Some t.
Proof.
  unfold get_graph_edge. cbv zeta.
  destruct (dict_item "tip" _) as [tip|]; rewrite ?bind_ok, ?bind_raise;
    [|discriminate].
  destruct (dict_item "count" _) as [count|]; rewrite ?bind_ok, ?bind_raise;
    [|discriminate].
  destruct tip as [| tip | | | | | |]; try discriminate.
  destruct (dict_lookup "id" _); [discriminate|].
  unfold RelationshipInDB. intros [= <-].
  rewrite !dict_lookup_app, !dict_lookup_set_ne by discriminate.
  now rewrite dict_lookup_set_eq, dict_lookup_set_ne, dict_lookup_set_eq
    by discriminate.
Qed.

Lemma get_graph_rows_ok `{Collaborators} (uuid : nat -> string)
      (res : list (fields * fields * fields)) (nodes : node_table)
      (edges : list fields) (nodes' : node_table) (edges' : list fields) :
  table_ok nodes ->
  get_graph_rows uuid res nodes edges = Ok (nodes', edges') ->
  table_ok nodes'
  /\ (forall k, In k (table_keys nodes) -> In k (table_keys nodes'))
  /\ exists new, edges' = (edges ++ new)%list
                 /\ Forall2 (edge_of_row nodes') res new.
Proof.
  revert nodes edges. induction res as [|[[source rel] target] res IH];
    intros nodes edges Hok Hrun.
  - injection Hrun as <- <-. split; [exact Hok|]. split; [auto|].
    exists []. split; [now rewrite app_nil_r | constructor].
  - cbn [get_graph_rows] in Hrun.
    destruct (get_or_add_node nodes source) as [[n1 s]|] eqn:E1;
      rewrite ?bind_ok, ?bind_raise in Hrun; [|discriminate].
    cbn [fst snd] in Hrun.
    destruct (get_or_add_node n1 target) as [[n2 t]|] eqn:E2;
      rewrite ?bind_ok, ?bind_raise in Hrun; [|discriminate].
    cbn [fst snd] in Hrun.
    destruct (get_graph_edge rel s t _) as [edge|] eqn:E3;
      rewrite ?bind_ok, ?bind_raise in Hrun; [|discriminate].
    destruct (get_or_add_node_ok _ _ _ _ Hok E1) as (Hok1 & Hm1 & Hs & Hsid).
    destruct (get_or_add_node_ok _ _ _ _ Hok1 E2) as (Hok2 & Hm2 & Ht & Htid).
    destruct (IH _ _ Hok2 Hrun) as (Hok' & Hm' & new & -> & Hall).
    destruct (get_graph_edge_ends _ _ _ _ _ E3) as [Hes Het].
    split; [exact Hok'|]. split; [auto|].
    exists (edge :: new). split; [now rewrite <- app_assoc|].
    constructor; [|exact Hall].
    exists s, t. cbn [fst snd]. repeat split; auto.
Qed.

(** When [get_graph] returns, it returns one edge for each row of the
    result, in the order of the rows, between the ids of the two nodes of
    the row; every edge ends at nodes of the list returned; these nodes
    have ids that are all different; and the parent of a node that has one
    is the id of a node of the list. *)
Theorem get_graph_well_formed `{Collaborators} (uuid : nat -> string)
        (res : list (fields * fields * fields))
        (nodes edges : list fields) :
  get_graph uuid res = Ok (nodes, edges) ->
  NoDup (map (dict_lookup "id") nodes)
  /\ Forall2 (fun (row : fields * fields * fields) e =>
                exists s t,
                  dict_lookup "id" (fst (fst row)) = Some s
                  /\ dict_lookup "id" (snd row) = Some t
                  /\ dict_lookup "source" e = Some s
                  /\ dict_lookup "target" e = Some t
                  /\ In (Some s) (map (dict_lookup "id") nodes)
                  /\ In (Some t) (map (dict_lookup "id") nodes))
             res edges
  /\ Forall (fun n => forall p, dict_lookup "parent" n = Some p ->
                        In (Some p) (map (dict_lookup "id") nodes)) nodes.
Proof.
  unfold get_graph.
  destruct (get_graph_rows uuid res [] []) as [[table es]|] eqn:Erun;
    rewrite ?bind_ok, ?bind_raise; [|discriminate].
  cbn [fst snd]. intros [= <- <-].
  assert (Hempty : table_ok []).
  { split; [apply NoDup_nil_2|]. split; intros; contradiction. }
  destruct (get_graph_rows_ok _ _ _ _ _ _ Hempty Erun)
    as ((Hnd & Hid & Hpar) & _ & new & -> & Hall).
  assert (Hids : map (dict_lookup "id") (values table)
                 = map Some (table_keys table)).
  { unfold values, table_keys. rewrite !map_map. apply map_ext_in.
    intros [k n] Hin. now apply (Hid k n). }
  rewrite Hids. split; [|split].
  - apply (NoDup_fmap_2 Some). exact Hnd.
  - cbn [app]. eapply Forall2_impl; [exact Hall|].
    intros row e (s & t & H1 & H2 & H3 & H4 & H5 & H6).
    exists s, t. repeat split; auto; now apply in_map.
  - apply Forall_forall. intros n Hn p Hp.
    apply list_elem_of_In in Hn. unfold values in Hn.
    apply in_map_iff in Hn as ([k n'] & <- & Hin).
    apply in_map. now apply (Hpar k n' p).
Qed.

Lemma merge_adds_counts_only_witness :
  dict_lookup "count" logons_alice_row = Some (VInt 2)
  /\ dict_lookup "count"
       (stored_rel logons_alice_row [logons_alice_row; logons_alice_row])
     = Some (VInt (2 + fold_right Z.add 0 [2; 2])).
Proof.
  assert (Ha : dict_lookup "count" logons_alice_row = Some (VInt 2))
    by (vm_compute; reflexivity).
  split; [exact Ha|].
  refine (proj1 (merge_adds_counts_only _ _ 2 [2; 2] Ha _)).
  repeat constructor; vm_compute; reflexivity.
Defined.

(** A node that is not yet in the dict is added under its id with the
    width [10 + 11 * len(label)], with the community of its [algo_lpa] as
    parent and its other properties unchanged, and a node for that
    community is in the dict after the call. *)
Theorem get_or_add_node_new `{Collaborators} (nodes : node_table)
        (node : fields) (node_id : value) (nodes' : node_table) (i : value) :
  dict_lookup "id" node = Some node_id ->
  table_get node_id nodes = None ->
  get_or_add_node nodes node = Ok (nodes', i) ->
  exists label len algo_lpa n,
    dict_lookup "label" node = Some label
    /\ py_len label = Ok len
    /\ dict_lookup "algo_lpa" node = Some algo_lpa
    /\ table_get node_id nodes' = Some n
    /\ dict_lookup "width" n = Some (VInt (10 + len * 11))
    /\ dict_lookup "parent" n = Some (VStr ("Compound-" ++ format algo_lpa))
    /\ (forall key, key <> "width" -> key <> "parent" ->
          dict_lookup key n = dict_lookup key node)
    /\ (exists c, table_get (VStr ("Compound-" ++ format algo_lpa)) nodes'
                  = Some c).
Proof.
  intros Hid Hfresh. unfold get_or_add_node, dict_item.
  rewrite Hid, bind_ok, Hfresh. unfold Observable.
  destruct (dict_lookup "label" node) as [label|];
    rewrite ?bind_ok, ?bind_raise; [|discriminate].
  destruct (py_len label) as [len|e] eqn:Elen;
    rewrite ?bind_ok, ?bind_raise; [|discriminate].
  destruct (dict_lookup "algo_lpa" node) as [algo|];
    rewrite ?bind_ok, ?bind_raise; [|discriminate].
  cbv zeta. rewrite !dict_lookup_set_ne by discriminate.
  rewrite Hid, bind_ok. intros [= <- <-].
  exists label, len, algo. eexists.
  split; [reflexivity|]. split; [exact Elen|]. split; [reflexivity|].
  split; [apply table_get_set|].
  split; [now rewrite dict_lookup_set_ne, dict_lookup_set_eq by discriminate|].
  split; [apply dict_lookup_set_eq|].
  split.
  - intros key Hw Hp. now rewrite !dict_lookup_set_ne by congruence.
  - apply table_get_key, table_set_keys. right.
    destruct (table_get (VStr ("Compound-" ++ format algo)) nodes) as [c|] eqn:Ec.
    + apply table_get_in in Ec. unfold table_keys. apply in_map_iff.
      now exists (VStr ("Compound-" ++ format algo), c).
    + apply table_set_keys. now left.
Qed.

Lemma get_or_add_node_new_witness :
  exists nodes' n,
    @get_or_add_node (sample []) [] node_alice = Ok (nodes', VStr "alice")
    /\ table_get (VStr "alice") nodes' = Some n
    /\ dict_lookup "width" n = Some (VInt 65)
    /\ dict_lookup "parent" n = Some (VStr "Compound-7").
Proof.
  destruct (@get_or_add_node (sample []) [] node_alice) as [[nodes' i]|] eqn:E;
    [|vm_compute in E; discriminate].
  assert (Hi : i = VStr "alice") by (vm_compute in E; congruence).
  subst i.
  destruct (@get_or_add_node_new (sample []) [] node_alice (VStr "alice")
              nodes' (VStr "alice") eq_refl eq_refl E)
    as (label & len & algo & n & Hl & Hlen & Ha & Hn & Hw & Hp & _).
  injection Hl as <-. injection Hlen as <-. injection Ha as <-.
  exists nodes', n. split; [reflexivity|]. split; [exact Hn|].
  split; [exact Hw | exact Hp].
Defined.

Lemma get_or_add_node_idempotent_witness :
  exists nodes',
    @get_or_add_node (sample []) [] node_alice = Ok (nodes', VStr "alice")
    /\ @get_or_add_node (sample []) nodes' node_alice
       = Ok (nodes', VStr "alice").
Proof.
  destruct (@get_or_add_node (sample []) [] node_alice) as [[nodes' i]|] eqn:E;
    [|vm_compute in E; discriminate].
  assert (Hi : i = VStr "alice") by (vm_compute in E; congruence).
  subst i. exists nodes'. split; [reflexivity|].
  apply (@get_or_add_node_idempotent (sample []) [] node_alice); [|exact E].
  split; [apply NoDup_nil_2|]. split; intros; contradiction.
Defined.

Lemma get_graph_well_formed_witness :
  exists nodes edges,
    @get_graph (sample []) sample_uuid sample_rows = Ok (nodes, edges)
    /\ map (dict_lookup "id") nodes
       = [Some (VStr "Compound-7"); Some (VStr "alice"); Some (VStr "SRV01")]
    /\ NoDup (map (dict_lookup "id") nodes).
Proof.
  destruct (@get_graph (sample []) sample_uuid sample_rows)
    as [[nodes edges]|] eqn:E; [|vm_compute in E; discriminate].
  exists nodes, edges. split; [reflexivity|].
  split; [vm_compute in E; injection E as <- <-; reflexivity|].
  exact (proj1 (@get_graph_well_formed (sample []) _ _ _ _ E)).
Defined.

(** ** The calendar of [convert_logtime] *)

Lemma holds_from_spec (check : Z -> bool) (count : nat) (n i : Z) :
  holds_from check n count = true -> n <= i < n + Z.of_nat count ->
  check i = true.
Proof.
  revert n. induction count as [|count IH]; intros n H Hi; [lia|].
  cbn [holds_from] in H. apply andb_true_iff in H as [H0 H].
  destruct (Z.eq_dec i n) as [-> | Hne]; [exact H0|].
  apply (IH (n + 1)); [exact H | lia].
Qed.

Lemma month_day_checked :
  holds_from (month_day_check false) 0 365 = true
  /\ holds_from (month_day_check true) 0 366 = true.
Proof. split; vm_compute; reflexivity. Qed.

Lemma month_day_spec (leapyear : bool) (n : Z) :
  0 <= n < 365 + (if leapyear then 1 else 0) ->
  let (m, d) := month_day leapyear n in
  1 <= m <= 12
  /\ 1 <= d <= DAYS_IN_MONTH m + (if (m =? 2) && leapyear then 1 else 0)
  /\ DAYS_BEFORE_MONTH m + (if (2 <? m) && leapyear then 1 else 0) + d = n + 1.
Proof.
  intros Hn.
  assert (Hc : month_day_check leapyear n = true).
  { destruct month_day_checked as [Hf Ht]. destruct leapyear.
    - apply (holds_from_spec _ _ _ _ Ht). lia.
    - apply (holds_from_spec _ _ _ _ Hf). lia. }
  unfold month_day_check in Hc. destruct (month_day leapyear n) as [m d].
  rewrite !andb_true_iff, !Z.leb_le, Z.eqb_eq in Hc. lia.
Qed.

Lemma is_leap_spec (y : Z) :
  is_leap y = true <-> (y mod 4 = 0 /\ (y mod 100 <> 0 \/ y mod 400 = 0)).
Proof.
  unfold is_leap.
  rewrite andb_true_iff, orb_true_iff, negb_true_iff, !Z.eqb_eq, Z.eqb_neq.
  reflexivity.
Qed.

Lemma days_in_month_leap (y m : Z) :
  days_in_month y m
  = DAYS_IN_MONTH m + (if (m =? 2) && is_leap y then 1 else 0).
Proof.
  unfold days_in_month. destruct (Z.eqb_spec m 2) as [-> | _]; simpl.
  - now destruct (is_leap y).
  - lia.
Qed.

Lemma ord2ymd_spec (n0 : Z) :
  1 <= n0 ->
  exists y m d,
    ord2ymd n0 = (y, m, d)
    /\ ymd2ord y m d = n0
    /\ 1 <= y /\ (n0 <= MAXORDINAL -> y <= 9999)
    /\ 1 <= m <= 12 /\ 1 <= d <= days_in_month y m.
Proof.
  intros Hn0. unfold ord2ymd. cbv zeta.
  set (n400 := (n0 - 1) / 146097). set (r1 := (n0 - 1) mod 146097).
  set (n100 := r1 / 36524). set (r2 := r1 mod 36524).
  set (n4 := r2 / 1461). set (r3 := r2 mod 1461).
  set (n1 := r3 / 365). set (r4 := r3 mod 365).
  assert (Hdec : n0 - 1 = 146097 * n400 + 36524 * n100 + 1461 * n4
                          + 365 * n1 + r4
                 /\ 0 <= n400 /\ 0 <= n100 <= 4 /\ 0 <= n4 <= 24
                 /\ 0 <= n1 <= 4 /\ 0 <= r4 < 365
                 /\ (n100 = 4 -> n4 = 0 /\ n1 = 0 /\ r4 = 0)
                 /\ (n1 = 4 -> r4 = 0 /\ n4 <= 23)
                 /\ (n0 <= 3652059 ->
                     400 * n400 + 100 * n100 + 4 * n4 + n1 <= 9999)
                 /\ (n0 <= 3652059 -> n1 <= 3 -> n100 <= 3 ->
                     400 * n400 + 100 * n100 + 4 * n4 + n1 <= 9998)).
  { subst n400 r1 n100 r2 n4 r3 n1 r4.
    repeat match goal with |- _ /\ _ => split end; intros;
      Z.div_mod_to_equations; lia. }
  clearbody n400 r1 n100 r2 n4 r3 n1 r4.
  destruct Hdec as (Hsum & H400 & H100 & H4 & H1 & Hr4 & Hc & Hq & Hmax & Hmax').
  destruct ((n1 =? 4) || (n100 =? 4)) eqn:Hspecial.
  - (* the last day of a leap year *)
    apply orb_true_iff in Hspecial. rewrite !Z.eqb_eq in Hspecial.
    set (y := n400 * 400 + 1 + n100 * 100 + n4 * 4 + n1 - 1).
    exists y, 12, 31. split; [reflexivity|].
    assert (Hleap : is_leap y = true).
    { apply is_leap_spec. subst y.
      destruct Hspecial as [-> | ->].
      - destruct (Hq eq_refl) as [-> Hn4].
        split; [|left]; Z.div_mod_to_equations; lia.
      - destruct (Hc eq_refl) as (-> & -> & ->).
        split; [|right]; Z.div_mod_to_equations; lia. }
    unfold ymd2ord, days_before_month, days_before_year.
    rewrite days_in_month_leap, Hleap.
    change (DAYS_BEFORE_MONTH 12) with 334.
    change (DAYS_IN_MONTH 12) with 31.
    change ((2 <? 12) && true) with true.
    change ((12 =? 2) && true) with false. cbv iota.
    unfold MAXORDINAL. subst y.
    destruct Hspecial as [-> | ->].
    + destruct (Hq eq_refl) as [-> Hn4].
      repeat match goal with |- _ /\ _ => split end; intros;
        Z.div_mod_to_equations; lia.
    + destruct (Hc eq_refl) as (-> & -> & ->).
      repeat match goal with |- _ /\ _ => split end; intros;
        Z.div_mod_to_equations; lia.
  - apply orb_false_iff in Hspecial. rewrite !Z.eqb_neq in Hspecial.
    set (y := n400 * 400 + 1 + n100 * 100 + n4 * 4 + n1).
    set (leapyear := (n1 =? 3) && (negb (n4 =? 24) || (n100 =? 3))).
    assert (Hleap : is_leap y = leapyear).
    { destruct leapyear eqn:El; subst leapyear.
      - apply is_leap_spec.
        rewrite andb_true_iff, orb_true_iff, negb_true_iff, !Z.eqb_eq,
          Z.eqb_neq in El.
        subst y. Z.div_mod_to_equations. lia.
      - destruct (is_leap y) eqn:Ey; [|reflexivity]. exfalso.
        apply is_leap_spec in Ey.
        rewrite andb_false_iff, orb_false_iff, negb_false_iff, !Z.eqb_eq,
          !Z.eqb_neq in El.
        subst y. Z.div_mod_to_equations. lia. }
    pose proof (month_day_spec leapyear r4) as Hmd.
    unfold month_day in Hmd. cbv zeta in Hmd.
    destruct (r4 <? _) eqn:Hlt.
    + eexists y, _, _. split; [reflexivity|].
      destruct Hmd as (Hm & Hd & Hdays); [destruct leapyear; lia|].
      unfold ymd2ord, days_before_month, days_before_year.
      rewrite days_in_month_leap, Hleap.
      unfold MAXORDINAL. subst y. Z.div_mod_to_equations. lia.
    + eexists y, _, _. split; [reflexivity|].
      destruct Hmd as (Hm & Hd & Hdays); [destruct leapyear; lia|].
      unfold ymd2ord, days_before_month, days_before_year.
      rewrite days_in_month_leap, Hleap.
      unfold MAXORDINAL. subst y. Z.div_mod_to_equations. lia.
Qed.

Lemma strptime_valid (s format : string) (dt : datetime) :
  strptime s format = Ok dt -> valid_datetime dt.
Proof.
  unfold strptime. destruct (time_re format false) as [r|]; [|discriminate].
  destruct (re_match true r s) as [[found [|c rest]]|]; try discriminate.
  destruct (group_int found "Y" 1900) as [y|]; [|discriminate].
  destruct (group_int found "m" 1) as [m|]; [|discriminate].
  destruct (group_int found "d" 1) as [d|]; [|discriminate].
  destruct (group_int found "H" 0) as [H|]; [|discriminate].
  destruct (group_int found "M" 0) as [M|]; [|discriminate].
  destruct (group_int found "S" 0) as [S|]; [|discriminate].
  rewrite !bind_ok. apply make_datetime_valid.
Qed.

(** [dt + timedelta(hours=h)], when it is in range, is a date and time of
    day [h] hours after [dt]. *)
Lemma add_hours_spec (dt t : datetime) (h : Z) :
  0 <= microsecond dt <= 999999 ->
  add_hours dt h = Ok t ->
  instant t = instant dt + h * 3600000000 /\ valid_datetime t.
Proof.
  intros Hus. unfold add_hours.
  set (seconds := hour dt * 3600 + minute dt * 60 + second dt + h * 3600).
  set (days := ymd2ord (year dt) (month dt) (day dt) + seconds / 86400).
  destruct ((0 <? days) && (days <=? MAXORDINAL)) eqn:Hrange; [|discriminate].
  apply andb_true_iff in Hrange as [Hlo Hhi].
  apply Z.ltb_lt in Hlo. apply Z.leb_le in Hhi.
  destruct (ord2ymd_spec days ltac:(lia))
    as (y & m & d & -> & Hord & Hy & Hmax & Hm & Hd).
  intros [= <-]. unfold instant, valid_datetime. cbn [year month day hour
    minute second microsecond]. rewrite Hord. specialize (Hmax Hhi).
  subst days seconds.
  repeat match goal with |- _ /\ _ => split end; try lia;
    Z.div_mod_to_equations; lia.
Qed.

(** The offset of [convert_logtime] is exact: the instant returned is
    [tzone] hours after the date and time the text reads as, over the ends
    of days, months and years. *)
Theorem convert_logtime_offset (logtime : string) (tzone : Z) (t : datetime) :
  convert_logtime logtime tzone = Ok t ->
  exists dt,
    strptime (tzless_of logtime) "%Y-%m-%d %H:%M:%S" = Ok dt
    /\ instant t = instant dt + tzone * 3600000000.
Proof.
  unfold convert_logtime. rewrite convert_logtime_via_first.
  destruct (strptime _ _) as [dt|e] eqn:Edt; rewrite ?bind_ok, ?bind_raise;
    [|discriminate].
  destruct (add_hours dt tzone) as [t'|e] eqn:Et;
    rewrite ?bind_ok, ?bind_raise; [|discriminate].
  intros [= <-]. exists dt. split; [reflexivity|].
  pose proof (strptime_valid _ _ _ Edt) as Hv.
  apply (add_hours_spec dt t' tzone); [apply Hv | exact Et].
Qed.

Lemma convert_logtime_offset_witness :
  convert_logtime "2021-12-31 23:30:00" 1
  = Ok (mkdatetime 2022 1 1 0 30 0 0)
  /\ exists dt,
       strptime (tzless_of "2021-12-31 23:30:00") "%Y-%m-%d %H:%M:%S" = Ok dt
       /\ instant (mkdatetime 2022 1 1 0 30 0 0)
          = instant dt + 1 * 3600000000.
Proof.
  assert (H : convert_logtime "2021-12-31 23:30:00" 1
              = Ok (mkdatetime 2022 1 1 0 30 0 0))
    by (vm_compute; reflexivity).
  split; [exact H|].
  exact (convert_logtime_offset _ _ _ H).
Defined.

(** What [convert_logtime] returns is a date of the calendar in the years
    1 to 9999 with a time of day, whatever the text and the offset. *)
Theorem convert_logtime_valid (logtime : string) (tzone : Z) (t : datetime) :
  convert_logtime logtime tzone = Ok t -> valid_datetime t.
Proof.
  unfold convert_logtime. rewrite convert_logtime_via_first.
  destruct (strptime _ _) as [dt|e] eqn:Edt; rewrite ?bind_ok, ?bind_raise;
    [|discriminate].
  destruct (add_hours dt tzone) as [t'|e] eqn:Et;
    rewrite ?bind_ok, ?bind_raise; [|discriminate].
  intros [= <-].
  pose proof (strptime_valid _ _ _ Edt) as Hv.
  apply (add_hours_spec dt t' tzone); [apply Hv | exact Et].
Qed.

Lemma convert_logtime_valid_witness :
  convert_logtime "2020-02-28 23:30:00" 1
  = Ok (mkdatetime 2020 2 29 0 30 0 0)
  /\ valid_datetime (mkdatetime 2020 2 29 0 30 0 0).
Proof.
  assert (H : convert_logtime "2020-02-28 23:30:00" 1
              = Ok (mkdatetime 2020 2 29 0 30 0 0))
    by (vm_compute; reflexivity).
  split; [exact H|].
  exact (convert_logtime_valid _ _ _ H).
Defined.

(** ** The namespace declaration in [to_lxml] *)

Lemma replace_from_skip (old new p rest : string) :
  replace_from old new (String.length p) (p ++ rest)
  = replace_from old new O rest.
Proof.
  induction p as [|c p IH]; [now destruct rest|].
  rewrite append_cons. exact IH.
Qed.

Lemma string_skip_append (p rest : string) :
  string_skip (String.length p) (p ++ rest) = rest.
Proof.
  induction p as [|c p IH]; [now destruct rest|].
  rewrite append_cons. exact IH.
Qed.

Lemma replace_absent (old new s : string) :
  index_of old s = None -> replace old new s = s.
Proof.
  unfold replace. induction s as [|c s IH]; [reflexivity|].
  cbn [index_of replace_from].
  destruct (drop_prefix false old (String c s)); [discriminate|].
  destruct (index_of old s); [discriminate|].
  intros _. now rewrite IH.
Qed.

Lemma replace_first (old new s : string) (k : nat) :
  old <> EmptyString ->
  index_of old s = Some k ->
  replace old new s
  = string_take k s ++ new
      ++ replace old new (string_skip (k + String.length old) s).
Proof.
  intros Hold. unfold replace. revert k.
  induction s as [|c s IH]; intros k.
  - destruct old; [contradiction | discriminate].
  - cbn [index_of replace_from].
    destruct (drop_prefix false old (String c s)) as [rest|] eqn:E.
    + intros [= <-]. apply drop_prefix_exact in E.
      destruct old as [|a old']; [contradiction|].
      rewrite append_cons in E. injection E as -> ->.
      cbn [string_take String.length Nat.add string_skip Nat.sub].
      rewrite Nat.sub_0_r, replace_from_skip, string_skip_append.
      reflexivity.
    + destruct (index_of old s) as [k'|]; [|discriminate].
      intros [= <-]. cbn [string_take Nat.add string_skip].
      now rewrite (IH k' eq_refl), append_cons.
Qed.

(** [to_lxml] hands the parser the bytes of the text without the
    declaration of the event namespace: a text in which the declaration
    occurs once, at [k], is parsed as what is before [k] followed by what
    is after the declaration. *)
Theorem to_lxml_removes_declaration `{Collaborators} (record_xml : string)
        (k : nat) :
  index_of EVENT_XMLNS record_xml = Some k ->
  index_of EVENT_XMLNS
    (string_skip (k + String.length EVENT_XMLNS) record_xml) = None ->
  to_lxml record_xml
  = etree_fromstring
      (encode_utf8
         (string_take k record_xml
          ++ string_skip (k + String.length EVENT_XMLNS) record_xml)).
Proof.
  unfold to_lxml. intros Hk Hrest.
  rewrite (replace_first EVENT_XMLNS "" record_xml k) by
    (discriminate || exact Hk).
  now rewrite (replace_absent _ _ _ Hrest), append_empty.
Qed.

Lemma to_lxml_removes_declaration_witness :
  index_of EVENT_XMLNS logon_alice = Some 45%nat
  /\ index_of EVENT_XMLNS
       (string_skip (45 + String.length EVENT_XMLNS) logon_alice) = None
  /\ @to_lxml (sample []) logon_alice
     = xml_fromstring
         (encode_utf8
            (string_take 45 logon_alice
             ++ string_skip (45 + String.length EVENT_XMLNS) logon_alice)).
Proof.
  assert (Hk : index_of EVENT_XMLNS logon_alice = Some 45%nat)
    by (vm_compute; reflexivity).
  assert (Hrest : index_of EVENT_XMLNS
                    (string_skip (45 + String.length EVENT_XMLNS) logon_alice)
                  = None) by (vm_compute; reflexivity).
  split; [exact Hk|]. split; [exact Hrest|].
  exact (@to_lxml_removes_declaration (sample []) logon_alice 45 Hk Hrest).
Defined.

(** [to_lxml] hands the parser the bytes of a text in which the
    declaration of the event namespace does not occur as they are. *)
Theorem to_lxml_without_declaration `{Collaborators} (record_xml : string) :
  index_of EVENT_XMLNS record_xml = None ->
  to_lxml record_xml = etree_fromstring (encode_utf8 record_xml).
Proof.
  unfold to_lxml. intros Hno. now rewrite (replace_absent _ _ _ Hno).
Qed.

Lemma to_lxml_without_declaration_witness :
  index_of EVENT_XMLNS "<Event xmlns='urn:other'><System/></Event>" = None
  /\ @to_lxml (sample []) "<Event xmlns='urn:other'><System/></Event>"
     = xml_fromstring
         (encode_utf8 "<Event xmlns='urn:other'><System/></Event>").
Proof.
  assert (Hno : index_of EVENT_XMLNS
                  "<Event xmlns='urn:other'><System/></Event>" = None)
    by (vm_compute; reflexivity).
  split; [exact Hno|].
  exact (@to_lxml_without_declaration (sample []) _ Hno).
Defined.
